(** * RenderCV web: the render-job subsystem

    A shallow embedding of the render-job code of [rendercv.web]
    ([models.py], [storage.py], [render_service.py], [tasks.py] and
    [routers/render.py]) and the properties of its job state machine,
    quota admission, storage paths and download boundary.

    Python objects loaded through a SQLAlchemy session are modelled as rows
    of the session's tables, addressed by primary key, so that an attribute
    assignment followed by [db.commit()] is an update of the session row
    followed by a copy of the session into the committed database.
    Exceptions are modelled by a state-and-error monad in which the state
    survives a raise, as it does in Python. *)

From Stdlib Require Import ZArith String Ascii List Bool Lia.
From stdpp Require Import base option list gmap strings pretty.

Local Open Scope string_scope.
Local Open Scope Z_scope.

(** ** Python values *)

(** A [bytes] object is a [list Byte.byte]; a [datetime] is an instant of
    the UTC clock, a [Z] in ticks. *)

(** [len(content)] *)
Definition len {A} (l : list A) : Z := Z.of_nat (length l).

(** Truthiness of a [str | None] value: [None] and the empty string are
    falsy. *)
Definition truthy_str (o : option string) : bool :=
  match o with
  | None => false
  | Some s => negb (String.eqb s "")
  end.

(** Truthiness of a [bytes | None] value: [None] and [b''] are falsy. *)
Definition truthy_bytes (o : option (list Byte.byte)) : bool :=
  match o with
  | None => false
  | Some [] => false
  | Some (_ :: _) => true
  end.

(** Truthiness of an object reference that may be [None]. *)
Definition truthy_obj {A} (o : option A) : bool :=
  match o with
  | None => false
  | Some _ => true
  end.

(** [str.lower()], on ASCII letters. *)
Definition lower_ascii (c : ascii) : ascii :=
  let n := nat_of_ascii c in
  if (Nat.leb 65 n && Nat.leb n 90)%bool then ascii_of_nat (n + 32) else c.

Fixpoint lower (s : string) : string :=
  match s with
  | EmptyString => EmptyString
  | String c s' => String (lower_ascii c) (lower s')
  end.

(** ** Exceptions *)

Inductive exn : Type :=
| HTTPException (status_code : Z) (detail : string)
| ValueError (msg : string)
| OSError (msg : string)
| ConnectionError (msg : string)
| IntegrityError (msg : string)
| InvalidRequestError (msg : string)
| RenderCVError (msg : string).

(** [str(e)] *)
Definition str (e : exn) : string :=
  match e with
  | HTTPException c d => pretty c +:+ ": " +:+ d
  | ValueError m | OSError m | ConnectionError m
  | IntegrityError m | InvalidRequestError m | RenderCVError m => m
  end.

Definition HTTP_400_BAD_REQUEST : Z := 400.
Definition HTTP_401_UNAUTHORIZED : Z := 401.
Definition HTTP_404_NOT_FOUND : Z := 404.
Definition HTTP_429_TOO_MANY_REQUESTS : Z := 429.
Definition HTTP_500_INTERNAL_SERVER_ERROR : Z := 500.

(** ** The state-and-error monad *)

Inductive result (A : Type) : Type :=
| Ok (a : A)
| Raise (e : exn).
Arguments Ok {A} a.
Arguments Raise {A} e.

Definition M (W A : Type) : Type := W -> result A * W.

Definition ret {W A} (a : A) : M W A := fun w => (Ok a, w).

Definition bind {W A B} (m : M W A) (k : A -> M W B) : M W B :=
  fun w =>
    match m w with
    | (Ok a, w') => k a w'
    | (Raise e, w') => (Raise e, w')
    end.

Definition raise {W A} (e : exn) : M W A := fun w => (Raise e, w).

(** [try: body / except Exception as e: handler(e)]: the handler runs in the
    state the body left behind. *)
Definition try_except {W A} (body : M W A) (handler : exn -> M W A) : M W A :=
  fun w =>
    match body w with
    | (Ok a, w') => (Ok a, w')
    | (Raise e, w') => handler e w'
    end.

Definition gets {W A} (f : W -> A) : M W A := fun w => (Ok (f w), w).
Definition modify {W} (f : W -> W) : M W unit := fun w => (Ok tt, f w).

(** The monad is used through stdpp's [x ← m; k] and [m;; k] notations. *)
#[global] Instance M_ret {W} : MRet (M W) := @ret W.
#[global] Instance M_bind {W} : MBind (M W) := fun A B k m => bind m k.

(** ** [models.py] *)

Inductive UserTier := FREE | PRO | ENTERPRISE.
Inductive RenderStatus := PENDING | PROCESSING | COMPLETED | FAILED.
Inductive OutputFormat := PDF | PNG | HTML | MARKDOWN.

Class StrEnum (A : Type) := value : A -> string.

#[global] Instance UserTier_value : StrEnum UserTier := fun t =>
  match t with
  | FREE => "free"
  | PRO => "pro"
  | ENTERPRISE => "enterprise"
  end.

#[global] Instance RenderStatus_value : StrEnum RenderStatus := fun s =>
  match s with
  | PENDING => "pending"
  | PROCESSING => "processing"
  | COMPLETED => "completed"
  | FAILED => "failed"
  end.

#[global] Instance OutputFormat_value : StrEnum OutputFormat := fun f =>
  match f with
  | PDF => "pdf"
  | PNG => "png"
  | HTML => "html"
  | MARKDOWN => "markdown"
  end.

Module User.
Record t := mk {
  id : string;
  is_active : bool;
  tier : string;
  renders_this_month : Z;
  renders_reset_at : option Z
}.

Definition limits : gmap string Z :=
  {[ value FREE := 10; value PRO := 100; value ENTERPRISE := 1000 ]}.

(** [limits.get(self.tier, 10)] *)
Definition render_limit (self : t) : Z :=
  default 10 (limits !! tier self).

Definition can_render (self : t) : bool :=
  renders_this_month self <? render_limit self.

Definition set_renders_this_month (v : Z) (self : t) : t :=
  mk (id self) (is_active self) (tier self) v (renders_reset_at self).

Definition set_renders_reset_at (v : option Z) (self : t) : t :=
  mk (id self) (is_active self) (tier self) (renders_this_month self) v.
End User.

Module CV.
Record t := mk {
  id : string;
  user_id : string;
  name : string;
  yaml_content : string;
  design_override : option string;
  locale_override : option string
}.
End CV.

Module RenderJob.
Record t := mk {
  id : string;
  cv_id : string;
  user_id : string;
  status : string;
  output_format : string;
  output_path : option string;
  output_url : option string;
  file_size_bytes : option Z;
  error_message : option string;
  started_at : option Z;
  completed_at : option Z;
  created_at : Z
}.

Definition set_status (v : string) (j : t) : t :=
  mk (id j) (cv_id j) (user_id j) v (output_format j) (output_path j)
     (output_url j) (file_size_bytes j) (error_message j) (started_at j)
     (completed_at j) (created_at j).

Definition set_output_path (v : option string) (j : t) : t :=
  mk (id j) (cv_id j) (user_id j) (status j) (output_format j) v
     (output_url j) (file_size_bytes j) (error_message j) (started_at j)
     (completed_at j) (created_at j).

Definition set_output_url (v : option string) (j : t) : t :=
  mk (id j) (cv_id j) (user_id j) (status j) (output_format j)
     (output_path j) v (file_size_bytes j) (error_message j) (started_at j)
     (completed_at j) (created_at j).

Definition set_file_size_bytes (v : option Z) (j : t) : t :=
  mk (id j) (cv_id j) (user_id j) (status j) (output_format j)
     (output_path j) (output_url j) v (error_message j) (started_at j)
     (completed_at j) (created_at j).

Definition set_error_message (v : option string) (j : t) : t :=
  mk (id j) (cv_id j) (user_id j) (status j) (output_format j)
     (output_path j) (output_url j) (file_size_bytes j) v (started_at j)
     (completed_at j) (created_at j).

Definition set_started_at (v : option Z) (j : t) : t :=
  mk (id j) (cv_id j) (user_id j) (status j) (output_format j)
     (output_path j) (output_url j) (file_size_bytes j) (error_message j) v
     (completed_at j) (created_at j).

Definition set_completed_at (v : option Z) (j : t) : t :=
  mk (id j) (cv_id j) (user_id j) (status j) (output_format j)
     (output_path j) (output_url j) (file_size_bytes j) (error_message j)
     (started_at j) v (created_at j).

(** The [duration_seconds] property, in clock ticks. *)
Definition duration_seconds (j : t) : option Z :=
  match started_at j, completed_at j with
  | Some s, Some c => Some (c - s)
  | _, _ => None
  end.
End RenderJob.

(** A job is terminal when its status is COMPLETED or FAILED. *)
Definition terminal (st : string) : bool :=
  String.eqb st (value COMPLETED) || String.eqb st (value FAILED).

(** ** [storage.py] *)

(** The abstract base class [StorageBackend]: a backend has its own state
    [B], and every method runs on it and may raise. *)
Class StorageBackend (B : Type) := {
  save : list Byte.byte -> string -> option string -> M B string;
  get : string -> M B (option (list Byte.byte));
  delete : string -> M B bool;
  exists_ : string -> M B bool;
  get_url : string -> option Z -> M B string;
  get_size : string -> M B (option Z)
}.

(** [LocalStorageBackend]: the object's [base_path], the regular files below
    it and, when the operating system refuses writes (disk full, read-only
    mount), the message of the [OSError] it answers with.

    The model covers the paths that [FileService] generates: relative paths
    in normal form (no empty, [.] or [..] component, no trailing slash) that
    name regular files.  Directories are not part of the state, and the
    normalisation of [pathlib] is not modelled: what the code does at a path
    that names a directory, or at another spelling of a path, is outside the
    model.  The backend serves the scenarios; no property of the file system
    itself is stated. *)
Record LocalStorageBackend := mkLocal {
  base_path : string;
  files : gmap string (list Byte.byte);
  write_fault : option string
}.

Module Local.
(** [self.base_path / path], for a relative [path] in normal form. *)
Definition _get_full_path (self : LocalStorageBackend) (path : string)
  : string :=
  base_path self +:+ "/" +:+ path.

Definition save (content : list Byte.byte) (path : string)
    (content_type : option string) : M LocalStorageBackend string :=
  fun self =>
    let full_path := _get_full_path self path in
    match write_fault self with
    | Some msg => (Raise (OSError msg), self)
    | None =>
        (Ok path,
         mkLocal (base_path self) (<[full_path := content]> (files self))
                 (write_fault self))
    end.

Definition get (path : string)
  : M LocalStorageBackend (option (list Byte.byte)) :=
  fun self =>
    let full_path := _get_full_path self path in
    match files self !! full_path with
    | None => (Ok None, self)
    | Some content => (Ok (Some content), self)
    end.

Definition delete (path : string) : M LocalStorageBackend bool :=
  fun self =>
    let full_path := _get_full_path self path in
    match files self !! full_path with
    | Some _ =>
        (Ok true,
         mkLocal (base_path self) (base.delete full_path (files self))
                 (write_fault self))
    | None => (Ok false, self)
    end.

Definition exists_ (path : string) : M LocalStorageBackend bool :=
  fun self => (Ok (truthy_obj (files self !! _get_full_path self path)), self).

Definition get_url (path : string) (expires_in : option Z)
  : M LocalStorageBackend string :=
  ret ("/api/v1/files/" +:+ path).

Definition get_size (path : string) : M LocalStorageBackend (option Z) :=
  fun self =>
    match files self !! _get_full_path self path with
    | Some content => (Ok (Some (len content)), self)
    | None => (Ok None, self)
    end.
End Local.

#[global] Instance Local_backend : StorageBackend LocalStorageBackend := {|
  save := Local.save;
  get := Local.get;
  delete := Local.delete;
  exists_ := Local.exists_;
  get_url := Local.get_url;
  get_size := Local.get_size
|}.

(** [FileService._generate_path] *)
Definition _generate_path (user_id cv_id job_id filename : string) : string :=
  "renders/" +:+ user_id +:+ "/" +:+ cv_id +:+ "/" +:+ job_id +:+ "/"
  +:+ filename.

(** The [content_types] dictionary of [save_render_output]. *)
Definition content_types : gmap string string :=
  {[ "pdf" := "application/pdf";
     "png" := "image/png";
     "html" := "text/html";
     "markdown" := "text/markdown";
     "md" := "text/markdown" ]}.

(** ** The rendering engine

    [rendercv.schema] and [rendercv.renderer] are outside the web package:
    their functions are taken as an interface.  A file that a function
    produces is represented by its content. *)
Class RenderCV := {
  Dict : Type;
  RenderCVModel : Type;
  json_loads : string -> result Dict;
  read_and_construct_model_from_yaml_string :
    string -> option Dict -> option Dict -> result RenderCVModel;
  process_model : RenderCVModel -> result RenderCVModel;
  create_typst_file : RenderCVModel -> result (list Byte.byte);
  render_pdf_from_typst : list Byte.byte -> result (list Byte.byte);
  render_pngs_from_pdf : list Byte.byte -> result (list (list Byte.byte));
  create_markdown_file : RenderCVModel -> result (list Byte.byte);
  create_html_from_markdown : list Byte.byte -> result (list Byte.byte)
}.

#[global] Instance result_ret : MRet result := @Ok.
#[global] Instance result_bind : MBind result := fun A B k r =>
  match r with
  | Ok a => k a
  | Raise e => Raise e
  end.

(** [x in (a, b)] on strings. *)
Definition str_in (x : string) (l : list string) : bool :=
  existsb (String.eqb x) l.

(** [json.loads(o) if o else None] *)
Definition loads_if `{RenderCV} (o : option string) : result (option Dict) :=
  match o with
  | Some s =>
      if truthy_str o then d ← json_loads s; mret (Some d) else mret None
  | None => mret None
  end.

(** [_render_cv_sync], as [RenderService] and [tasks.py] both have it; they
    differ in the text of the last error only. *)
Definition render_cv_sync_with `{RenderCV} (unsupported : string)
    (yaml_content : string) (design_override locale_override : option string)
    (output_format : string) : result (list Byte.byte) :=
  design_dict ← loads_if design_override;
  locale_dict ← loads_if locale_override;
  model ← read_and_construct_model_from_yaml_string
             yaml_content design_dict locale_dict;
  processed_model ← process_model model;
  if str_in output_format ["pdf"; "png"] then
    typst_file ← create_typst_file processed_model;
    pdf_file ← render_pdf_from_typst typst_file;
    if String.eqb output_format "pdf" then mret pdf_file
    else
      png_files ← render_pngs_from_pdf pdf_file;
      match png_files with
      | first :: _ => mret first
      | [] => Raise (ValueError "Failed to generate PNG")
      end
  else if str_in output_format ["markdown"; "md"] then
    create_markdown_file processed_model
  else if String.eqb output_format "html" then
    md_file ← create_markdown_file processed_model;
    create_html_from_markdown md_file
  else Raise (ValueError (unsupported +:+ output_format)).

(** [RenderService._render_cv_sync] *)
Definition _render_cv_sync `{RenderCV} :=
  render_cv_sync_with "Unsupported output format: ".

(** [tasks._render_cv_sync] *)
Definition tasks__render_cv_sync `{RenderCV} :=
  render_cv_sync_with "Unsupported format: ".

(** ** The database, the session and the world around the code *)

Record Tables := mkTables {
  users : gmap string User.t;
  cvs : gmap string CV.t;
  render_jobs : gmap string RenderJob.t
}.

(** What an execution does to the outside, in order: a commit with the
    rows it makes durable, a rollback, a call of the renderer, a call of the
    backend's [save] or [delete], a job put on the queue. *)
Inductive Event :=
| Commit (snapshot : Tables)
| Rollback
| ConverterCall (yaml_content : string)
    (design_override locale_override : option string) (output_format : string)
| BackendSave (path : string) (content : list Byte.byte)
| BackendDelete (path : string)
| Enqueue (job_id : string).

Section Web.
Context {B : Type} {backend : StorageBackend B} {engine : RenderCV}.

(** [uuid.uuid4()], as a function of the entropy consumed so far. *)
Variable uuid4 : nat -> string.

(** [session]: the rows as the request's session sees them;
    [database]: the committed rows; [storage]: the state of the storage
    backend; [redis]: the render queue, [None] when Redis is unreachable;
    [clock]: the UTC clock; [log]: the events so far, oldest first. *)
Record World := mkWorld {
  session : Tables;
  database : Tables;
  storage : B;
  redis : option (list string);
  clock : Z;
  entropy : nat;
  log : list Event
}.

Definition with_session (f : Tables -> Tables) (w : World) : World :=
  mkWorld (f (session w)) (database w) (storage w) (redis w) (clock w)
          (entropy w) (log w).

Definition emit (e : Event) : M World unit :=
  modify (fun w =>
    mkWorld (session w) (database w) (storage w) (redis w) (clock w)
            (entropy w) (log w ++ [e])).

(** [datetime.now(timezone.utc)]: reads the clock, which then moves on. *)
Definition now : M World Z :=
  fun w =>
    (Ok (clock w),
     mkWorld (session w) (database w) (storage w) (redis w) (clock w + 1)
             (entropy w) (log w)).

(** [generate_uuid] *)
Definition generate_uuid : M World string :=
  fun w =>
    (Ok (uuid4 (entropy w)),
     mkWorld (session w) (database w) (storage w) (redis w) (clock w)
             (S (entropy w)) (log w)).

(** Runs a backend method on the world's storage. *)
Definition on_storage {A} (m : M B A) : M World A :=
  fun w =>
    let '(r, b) := m (storage w) in
    (r, mkWorld (session w) (database w) b (redis w) (clock w) (entropy w)
                (log w)).

(** Lifts the outcome of a pure computation. *)
Definition of_result {A} (r : result A) : M World A := fun w => (r, w).

(** [await db.commit()] *)
Definition commit : M World unit :=
  fun w =>
    (Ok tt,
     mkWorld (session w) (session w) (storage w) (redis w) (clock w)
             (entropy w) (log w ++ [Commit (session w)])).

(** [await session.rollback()] *)
Definition rollback : M World unit :=
  fun w =>
    (Ok tt,
     mkWorld (database w) (database w) (storage w) (redis w) (clock w)
             (entropy w) (log w ++ [Rollback])).

(** [select(RenderJob).where(RenderJob.id == job_id)] and
    [scalar_one_or_none()] *)
Definition select_job (job_id : string) : M World (option RenderJob.t) :=
  gets (fun w => render_jobs (session w) !! job_id).

(** [select(CV).where(CV.id == cv_id)] *)
Definition select_cv (cv_id : string) : M World (option CV.t) :=
  gets (fun w => cvs (session w) !! cv_id).

(** [select(CV).where(CV.id == cv_id, CV.user_id == user_id)] *)
Definition select_cv_of (cv_id user_id : string) : M World (option CV.t) :=
  gets (fun w =>
          match cvs (session w) !! cv_id with
          | Some cv =>
              if String.eqb (CV.user_id cv) user_id then Some cv else None
          | None => None
          end).

(** [select(RenderJob).where(RenderJob.id == job_id,
    RenderJob.user_id == user_id)] *)
Definition select_job_of (job_id user_id : string)
  : M World (option RenderJob.t) :=
  gets (fun w =>
          match render_jobs (session w) !! job_id with
          | Some job =>
              if String.eqb (RenderJob.user_id job) user_id
              then Some job else None
          | None => None
          end).

(** An attribute assignment [job.attr = v] on the job object held by the
    session. *)
Definition job_set (job_id : string) (f : RenderJob.t -> RenderJob.t)
  : M World unit :=
  modify (with_session (fun t =>
    mkTables (users t) (cvs t) (alter f job_id (render_jobs t)))).

(** An attribute assignment on the user object held by the session. *)
Definition user_set (user_id : string) (f : User.t -> User.t)
  : M World unit :=
  modify (with_session (fun t =>
    mkTables (alter f user_id (users t)) (cvs t) (render_jobs t))).

(** The job object as the session holds it. *)
Definition job_obj (job_id : string) : M World RenderJob.t :=
  j ← select_job job_id;
  match j with
  | Some job => mret job
  | None =>
      raise (InvalidRequestError
               ("Instance RenderJob " +:+ job_id +:+ " is not persistent"))
  end.

(** The user object as the session holds it. *)
Definition user_obj (user_id : string) : M World User.t :=
  u ← gets (fun w => users (session w) !! user_id);
  match u with
  | Some user => mret user
  | None =>
      raise (InvalidRequestError
               ("Instance User " +:+ user_id +:+ " is not persistent"))
  end.

(** [db.add(job)]: the primary key is checked here rather than at the
    flush of the commit that follows. *)
Definition db_add (job : RenderJob.t) : M World unit :=
  j ← select_job (RenderJob.id job);
  match j with
  | Some _ =>
      raise (IntegrityError "UNIQUE constraint failed: render_jobs.id")
  | None =>
      modify (with_session (fun t =>
        mkTables (users t) (cvs t)
                 (<[RenderJob.id job := job]> (render_jobs t))))
  end.

(** [await db.refresh(job)]: the session row is read again from the
    database. *)
Definition refresh (job_id : string) : M World unit :=
  fun w =>
    match render_jobs (database w) !! job_id with
    | Some job =>
        (Ok tt,
         with_session (fun t =>
           mkTables (users t) (cvs t) (<[job_id := job]> (render_jobs t))) w)
    | None =>
        (Raise (InvalidRequestError
                  ("Could not refresh instance RenderJob " +:+ job_id)), w)
    end.

(** [await db.delete(job)] *)
Definition db_delete (job_id : string) : M World unit :=
  modify (with_session (fun t =>
    mkTables (users t) (cvs t) (base.delete job_id (render_jobs t)))).

(** ** [FileService] *)

Definition save_render_output (content : list Byte.byte)
    (user_id cv_id job_id output_format : string)
  : M World (string * string * Z) :=
  let extension := lower output_format in
  let filename := "cv." +:+ extension in
  let content_type :=
    default "application/octet-stream" (content_types !! extension) in
  let path := _generate_path user_id cv_id job_id filename in
  emit (BackendSave path content);;
  on_storage (save content path (Some content_type));;
  url ← on_storage (get_url path None);
  let size := len content in
  mret (path, url, size).

Definition get_render_output (path : string)
  : M World (option (list Byte.byte)) :=
  on_storage (get path).

Definition delete_render_output (path : string) : M World bool :=
  emit (BackendDelete path);;
  on_storage (delete path).

(** ** [render_service.py]: [RenderService] *)

Definition create_render_job (cv : CV.t) (output_format : OutputFormat)
  : M World RenderJob.t :=
  id ← generate_uuid;
  created_at ← gets clock;
  let job :=
    RenderJob.mk id (CV.id cv) (CV.user_id cv) (value PENDING)
                 (value output_format) None None None None None None
                 created_at in
  db_add job;;
  commit;;
  refresh id;;
  job_obj id.

(** [_render_cv]: the synchronous renderer, run in the executor. *)
Definition _render_cv (yaml_content : string)
    (design_override locale_override : option string)
    (output_format : string) : M World (list Byte.byte) :=
  emit (ConverterCall yaml_content design_override locale_override
                      output_format);;
  of_result (_render_cv_sync yaml_content design_override locale_override
                             output_format).

Definition process_render_job (job_id : string) : M World RenderJob.t :=
  (* Get the job *)
  job ← select_job job_id;
  match job with
  | None => raise (ValueError ("Render job " +:+ job_id +:+ " not found"))
  | Some job =>
      (* Get the CV *)
      cv ← select_cv (RenderJob.cv_id job);
      match cv with
      | None =>
          job_set job_id (RenderJob.set_status (value FAILED));;
          job_set job_id (RenderJob.set_error_message (Some "CV not found"));;
          commit;;
          job_obj job_id
      | Some cv =>
          (* Update status to processing *)
          job_set job_id (RenderJob.set_status (value PROCESSING));;
          t ← now;
          job_set job_id (RenderJob.set_started_at (Some t));;
          commit;;
          try_except
            ((* Render the CV *)
             output_content ←
               _render_cv (CV.yaml_content cv) (CV.design_override cv)
                          (CV.locale_override cv)
                          (RenderJob.output_format job);
             (* Save output to storage *)
             '(path, url, size) ←
               save_render_output output_content (CV.user_id cv) (CV.id cv)
                                  (RenderJob.id job)
                                  (RenderJob.output_format job);
             (* Update job with success *)
             job_set job_id (RenderJob.set_status (value COMPLETED));;
             job_set job_id (RenderJob.set_output_path (Some path));;
             job_set job_id (RenderJob.set_output_url (Some url));;
             job_set job_id (RenderJob.set_file_size_bytes (Some size));;
             t ← now;
             job_set job_id (RenderJob.set_completed_at (Some t)))
            (fun e =>
             (* Update job with failure *)
             job_set job_id (RenderJob.set_status (value FAILED));;
             job_set job_id (RenderJob.set_error_message (Some (str e)));;
             t ← now;
             job_set job_id (RenderJob.set_completed_at (Some t)));;
          commit;;
          refresh job_id;;
          job_obj job_id
      end
  end.

Definition get_job_status (job_id : string) : M World (option RenderJob.t) :=
  select_job job_id.

(** ** [tasks.py] *)

(** [queue.enqueue("rendercv.web.tasks.process_render_job", job_id, ...)] *)
Definition enqueue_render_job (job_id : string) : M World unit :=
  fun w =>
    match redis w with
    | None =>
        (Raise (ConnectionError "Error connecting to Redis"), w)
    | Some q =>
        (Ok tt,
         mkWorld (session w) (database w) (storage w) (Some (q ++ [job_id])%list)
                 (clock w) (entropy w) (log w ++ [Enqueue job_id]))
    end.

(** [Session()]: the worker's own session, on the committed rows. *)
Definition open_session : M World unit :=
  modify (fun w => with_session (fun _ => database w) w).

(** The worker's [process_render_job]; the dictionary it returns is a list
    of key and value pairs.  The [session.close()] of its [finally] leaves
    the committed rows as they are. *)
Definition tasks_process_render_job (job_id : string)
  : M World (list (string * string)) :=
  open_session;;
  (* Get the job *)
  job ← select_job job_id;
  match job with
  | None => mret [("error", "Job " +:+ job_id +:+ " not found")]
  | Some job =>
      (* Get the CV *)
      cv ← select_cv (RenderJob.cv_id job);
      match cv with
      | None =>
          job_set job_id (RenderJob.set_status (value FAILED));;
          job_set job_id (RenderJob.set_error_message (Some "CV not found"));;
          commit;;
          mret [("error", "CV not found")]
      | Some cv =>
          (* Update status *)
          job_set job_id (RenderJob.set_status (value PROCESSING));;
          t ← now;
          job_set job_id (RenderJob.set_started_at (Some t));;
          commit;;
          (* Render the CV *)
          try_except
            (emit (ConverterCall (CV.yaml_content cv) (CV.design_override cv)
                     (CV.locale_override cv) (RenderJob.output_format job));;
             output_content ←
               of_result
                 (tasks__render_cv_sync (CV.yaml_content cv)
                    (CV.design_override cv) (CV.locale_override cv)
                    (RenderJob.output_format job));
             (* Save output *)
             '(path, url, size) ←
               save_render_output output_content (CV.user_id cv) (CV.id cv)
                                  (RenderJob.id job)
                                  (RenderJob.output_format job);
             (* Update job *)
             job_set job_id (RenderJob.set_status (value COMPLETED));;
             job_set job_id (RenderJob.set_output_path (Some path));;
             job_set job_id (RenderJob.set_output_url (Some url));;
             job_set job_id (RenderJob.set_file_size_bytes (Some size));;
             t ← now;
             job_set job_id (RenderJob.set_completed_at (Some t));;
             commit;;
             mret [("status", "completed"); ("job_id", job_id);
                   ("output_url", url)])
            (fun e =>
             job_set job_id (RenderJob.set_status (value FAILED));;
             job_set job_id (RenderJob.set_error_message (Some (str e)));;
             t ← now;
             job_set job_id (RenderJob.set_completed_at (Some t));;
             commit;;
             mret [("error", str e)])
      end
  end.

(** ** [database.py]: the session dependency of an endpoint *)

(** [get_db]: the endpoint runs inside the session's [try]; its result is
    committed, an exception rolls the session back and is raised again. *)
Definition get_db {A} (endpoint : M World A) : M World A :=
  try_except
    (a ← endpoint; commit;; mret a)
    (fun e => rollback;; raise e).

(** ** [routers/render.py] *)

Record RenderRequest := mkRenderRequest {
  req_output_format : OutputFormat
}.

Record RenderJobResponse := mkRenderJobResponse {
  resp_id : string;
  resp_cv_id : string;
  resp_status : string;
  resp_output_format : string;
  resp_output_url : option string;
  resp_error_message : option string;
  resp_created_at : Z;
  resp_started_at : option Z;
  resp_completed_at : option Z;
  resp_duration_seconds : option Z
}.

Definition job_response (job : RenderJob.t) : RenderJobResponse :=
  mkRenderJobResponse
    (RenderJob.id job) (RenderJob.cv_id job) (RenderJob.status job)
    (RenderJob.output_format job) (RenderJob.output_url job)
    (RenderJob.error_message job) (RenderJob.created_at job)
    (RenderJob.started_at job) (RenderJob.completed_at job)
    (RenderJob.duration_seconds job).

Record Response := mkResponse {
  content : list Byte.byte;
  media_type : string;
  headers : list (string * string)
}.

(** The admission steps, which [render_cv] (lines 43 to 70) and
    [render_cv_sync] (lines 106 to 133) both start with, word for word: the
    limit check, the CV lookup, the job row and the render count.
    [current_user] is the key of the user object that the authentication
    dependency loaded into the session. *)
Definition admission (cv_id : string) (render_request : RenderRequest)
    (current_user : string) : M World RenderJob.t :=
  (* Check render limits *)
  user ← user_obj current_user;
  if negb (User.can_render user) then
    raise (HTTPException HTTP_429_TOO_MANY_REQUESTS
             ("Monthly render limit (" +:+ pretty (User.render_limit user)
              +:+ ") exceeded"))
  else
    (* Get the CV *)
    cv ← select_cv_of cv_id (User.id user);
    match cv with
    | None => raise (HTTPException HTTP_404_NOT_FOUND "CV not found")
    | Some cv =>
        (* Create render job *)
        job ← create_render_job cv (req_output_format render_request);
        (* Increment render count *)
        user_set current_user (fun u =>
          User.set_renders_this_month (User.renders_this_month u + 1) u);;
        user ← user_obj current_user;
        (if truthy_obj (User.renders_reset_at user) then mret tt
         else
           t ← now;
           user_set current_user (User.set_renders_reset_at (Some t)));;
        commit;;
        mret job
    end.

Definition render_cv (cv_id : string) (render_request : RenderRequest)
    (current_user : string) : M World RenderJobResponse :=
  job ← admission cv_id render_request current_user;
  (* Enqueue for background processing *)
  job ← try_except
          (enqueue_render_job (RenderJob.id job);; mret job)
          (fun _ =>
             (* If Redis is unavailable, process synchronously *)
             process_render_job (RenderJob.id job));
  mret (job_response job).

Definition render_cv_sync (cv_id : string) (render_request : RenderRequest)
    (current_user : string) : M World RenderJobResponse :=
  job ← admission cv_id render_request current_user;
  (* Process synchronously *)
  job ← process_render_job (RenderJob.id job);
  if String.eqb (RenderJob.status job) (value FAILED) then
    raise (HTTPException HTTP_500_INTERNAL_SERVER_ERROR
             (if truthy_str (RenderJob.error_message job)
              then default "" (RenderJob.error_message job)
              else "Render failed"))
  else mret (job_response job).

Definition get_render_job (job_id current_user : string)
  : M World RenderJobResponse :=
  job ← select_job_of job_id current_user;
  match job with
  | None => raise (HTTPException HTTP_404_NOT_FOUND "Render job not found")
  | Some job => mret (job_response job)
  end.

(** The [content_types] dictionary of [download_render_output]. *)
Definition download_content_types : gmap string string :=
  {[ value PDF := "application/pdf";
     value PNG := "image/png";
     value HTML := "text/html";
     value MARKDOWN := "text/markdown" ]}.

Definition dquote : string := String (ascii_of_nat 34) EmptyString.

Definition download_render_output (job_id current_user : string)
  : M World Response :=
  job ← select_job_of job_id current_user;
  match job with
  | None => raise (HTTPException HTTP_404_NOT_FOUND "Render job not found")
  | Some job =>
      if negb (String.eqb (RenderJob.status job) (value COMPLETED)) then
        raise (HTTPException HTTP_400_BAD_REQUEST
                 ("Render job is not completed (status: "
                  +:+ RenderJob.status job +:+ ")"))
      else if negb (truthy_str (RenderJob.output_path job)) then
        raise (HTTPException HTTP_404_NOT_FOUND "Output file not found")
      else
        (* Get file content *)
        content ← get_render_output (default "" (RenderJob.output_path job));
        if negb (truthy_bytes content) then
          raise (HTTPException HTTP_404_NOT_FOUND
                               "Output file not found in storage")
        else
          (* Determine content type *)
          let content_type :=
            default "application/octet-stream"
                    (download_content_types !! RenderJob.output_format job) in
          (* Get CV name for filename *)
          cv ← select_cv (RenderJob.cv_id job);
          let filename :=
            match cv with Some cv => CV.name cv | None => "cv" end
            +:+ "." +:+ RenderJob.output_format job in
          mret (mkResponse (default [] content) content_type
                  [("Content-Disposition",
                    "attachment; filename=" +:+ dquote +:+ filename
                    +:+ dquote)])
  end.

Definition delete_render_job (job_id current_user : string)
  : M World (list (string * string)) :=
  job ← select_job_of job_id current_user;
  match job with
  | None => raise (HTTPException HTTP_404_NOT_FOUND "Render job not found")
  | Some job =>
      (* Delete output file if exists *)
      (if truthy_str (RenderJob.output_path job) then
         delete_render_output (default "" (RenderJob.output_path job));;
         mret tt
       else mret tt);;
      db_delete job_id;;
      commit;;
      mret [("message", "Render job deleted successfully")]
  end.

(** ** Observations on a run *)

(** The committed snapshots of a log, oldest first. *)
Definition commits (l : list Event) : list Tables :=
  omap (fun e => match e with Commit t => Some t | _ => None end) l.

(** The statuses of job [job_id] in the committed snapshots of a log. *)
Definition committed_statuses (job_id : string) (l : list Event)
  : list string :=
  omap (fun t => RenderJob.status <$> render_jobs t !! job_id) (commits l).

Definition is_converter_call (e : Event) : bool :=
  match e with ConverterCall _ _ _ _ => true | _ => false end.

Definition is_backend_save (e : Event) : bool :=
  match e with BackendSave _ _ => true | _ => false end.

Definition is_backend_delete (e : Event) : bool :=
  match e with BackendDelete _ => true | _ => false end.

(** The events of [w'] that were not yet in [w]. *)
Definition new_events (w w' : World) : list Event :=
  drop (length (log w)) (log w').

(** The rendering of [cv] for [job], or the saving of its output on the
    storage [b], raises [e]: what the [try] block of [process_render_job]
    runs before it touches the job. *)
Definition render_or_save_raises (b : B) (job : RenderJob.t) (cv : CV.t)
    (e : exn) : Prop :=
  let fmt := RenderJob.output_format job in
  let path :=
    _generate_path (CV.user_id cv) (CV.id cv) (RenderJob.id job)
                   ("cv." +:+ lower fmt) in
  let content_type :=
    default "application/octet-stream" (content_types !! lower fmt) in
  match _render_cv_sync (CV.yaml_content cv) (CV.design_override cv)
                        (CV.locale_override cv) fmt with
  | Raise e' => e' = e
  | Ok content =>
      match save content path (Some content_type) b with
      | (Raise e', _) => e' = e
      | (Ok _, b') =>
          match get_url path None b' with
          | (Raise e', _) => e' = e
          | (Ok _, _) => False
          end
      end
  end.



(** The job row that [create_render_job] inserts in the world [w]. *)
Definition new_job (w : World) (cv : CV.t) (output_format : OutputFormat)
  : RenderJob.t :=
  RenderJob.mk (uuid4 (entropy w)) (CV.id cv) (CV.user_id cv) (value PENDING)
               (value output_format) None None None None None None (clock w).

(** The outcome is the 429 of the render limit. *)
Definition is_quota_exceeded {A} (r : result A) : bool :=
  match r with
  | Raise (HTTPException c _) => c =? HTTP_429_TOO_MANY_REQUESTS
  | _ => false
  end.

End Web.

(** * Scenarios *)

(** A rendering engine for the scenarios: the model of a CV is its YAML
    text, the Typst and Markdown files are that text, the PDF of an empty
    Typst file cannot be made, and any other is the Typst file after a
    header. *)
Definition sample_engine : RenderCV := {|
  Dict := string;
  RenderCVModel := string;
  json_loads := fun s => Ok s;
  read_and_construct_model_from_yaml_string := fun yaml _ _ => Ok yaml;
  process_model := fun m => Ok m;
  create_typst_file := fun m => Ok (list_byte_of_string m);
  render_pdf_from_typst := fun t =>
    match t with
    | [] => Raise (RenderCVError "invalid typst")
    | _ => Ok (list_byte_of_string "%PDF" ++ t)%list
    end;
  render_pngs_from_pdf := fun p => Ok [p];
  create_markdown_file := fun m => Ok (list_byte_of_string m);
  create_html_from_markdown := fun md => Ok md
|}.

(** Identifiers J0, J1, ... for the jobs. *)
Definition sample_uuid4 (n : nat) : string := "J" +:+ pretty n.

(** A FREE user at 9 renders, and the same user at 10. *)
Definition sample_user : User.t := User.mk "U" true (value FREE) 9 None.
Definition full_user : User.t := User.mk "U" true (value FREE) 10 None.

(** A CV that renders, and one with no content: its Typst file is empty and
    has no PDF, its Markdown file is empty. *)
Definition sample_cv : CV.t := CV.mk "D" "U" "My CV" "cv: {}" None None.
Definition empty_cv : CV.t := CV.mk "E" "U" "Empty" "" None None.

Definition sample_tables : Tables :=
  mkTables {[ "U" := sample_user ]}
           {[ "D" := sample_cv; "E" := empty_cv ]} ∅.

Definition full_tables : Tables :=
  mkTables {[ "U" := full_user ]}
           {[ "D" := sample_cv; "E" := empty_cv ]} ∅.

Definition sample_storage : LocalStorageBackend :=
  mkLocal "/srv/storage" ∅ None.

(** The user at 9 renders with the two CVs, no job yet, Redis down. *)
Definition sample_world : @World LocalStorageBackend :=
  mkWorld sample_tables sample_tables sample_storage None 1000 0 [].

(** The same with the user at 10 renders. *)
Definition full_world : @World LocalStorageBackend :=
  mkWorld full_tables full_tables sample_storage None 1000 0 [].

(** After the admission of a PDF render of D: job J0 is PENDING. *)
Definition world_admitted : @World LocalStorageBackend :=
  snd (admission sample_uuid4 "D" (mkRenderRequest PDF) "U" sample_world).

Definition job_pending : RenderJob.t :=
  RenderJob.mk "J0" "D" "U" "pending" "pdf" None None None None None None 1000.

(** After the admission of a PDF render of E. *)
Definition world_admitted_empty : @World LocalStorageBackend :=
  snd (admission sample_uuid4 "E" (mkRenderRequest PDF) "U" sample_world).

Definition job_pending_empty : RenderJob.t :=
  RenderJob.mk "J0" "E" "U" "pending" "pdf" None None None None None None 1000.

(** After the admission of a Markdown render of D. *)
Definition world_admitted_markdown : @World LocalStorageBackend :=
  snd (admission sample_uuid4 "D" (mkRenderRequest MARKDOWN) "U" sample_world).

Definition job_pending_markdown : RenderJob.t :=
  RenderJob.mk "J0" "D" "U" "pending" "markdown" None None None None None None
               1000.

Definition job_done_markdown : RenderJob.t :=
  RenderJob.mk "J0" "D" "U" "completed" "markdown"
    (Some "renders/U/D/J0/cv.markdown")
    (Some "/api/v1/files/renders/U/D/J0/cv.markdown")
    (Some 6) None (Some 1001) (Some 1002) 1000.

(** After a first, successful, synchronous PDF render of D: job J0 is
    COMPLETED. *)
Definition world_done : @World LocalStorageBackend :=
  snd (render_cv_sync (engine := sample_engine) sample_uuid4 "D"
                      (mkRenderRequest PDF) "U" sample_world).

Definition job_done : RenderJob.t :=
  RenderJob.mk "J0" "D" "U" "completed" "pdf"
    (Some "renders/U/D/J0/cv.pdf") (Some "/api/v1/files/renders/U/D/J0/cv.pdf")
    (Some 10) None (Some 1001) (Some 1002) 1000.

(** The record that [process_render_job] returns for J0 in [world_done]. *)
Definition job_rerun : RenderJob.t :=
  RenderJob.mk "J0" "D" "U" "completed" "pdf"
    (Some "renders/U/D/J0/cv.pdf") (Some "/api/v1/files/renders/U/D/J0/cv.pdf")
    (Some 10) None (Some 1003) (Some 1004) 1000.

(** After a synchronous Markdown render of E: job J0 is COMPLETED and its
    stored output is the empty byte string. *)
Definition world_empty_output : @World LocalStorageBackend :=
  snd (render_cv_sync (engine := sample_engine) sample_uuid4 "E"
                      (mkRenderRequest MARKDOWN) "U" sample_world).

Definition job_empty_output : RenderJob.t :=
  RenderJob.mk "J0" "E" "U" "completed" "markdown"
    (Some "renders/U/E/J0/cv.markdown")
    (Some "/api/v1/files/renders/U/E/J0/cv.markdown")
    (Some 0) None (Some 1001) (Some 1002) 1000.

(** A PENDING job whose CV row is gone. *)
Definition job_orphan : RenderJob.t :=
  RenderJob.mk "J7" "gone" "U" "pending" "pdf" None None None None None None
               1000.

Definition orphan_tables : Tables :=
  mkTables {[ "U" := sample_user ]} {[ "D" := sample_cv ]}
           {[ "J7" := job_orphan ]}.

Definition world_orphan : @World LocalStorageBackend :=
  mkWorld orphan_tables orphan_tables sample_storage None 2000 8 [].

(** [sample_world] with Redis reachable and an empty queue. *)
Definition queue_world : @World LocalStorageBackend :=
  mkWorld sample_tables sample_tables sample_storage (Some []) 1000 0 [].

(** [sample_cv] after its owner emptied it. *)
Definition edited_cv : CV.t := CV.mk "D" "U" "My CV" "" None None.

Definition edited_tables : Tables :=
  mkTables (users (database world_done))
           (<["D" := edited_cv]> (cvs (database world_done)))
           (render_jobs (database world_done)).

(** [world_done] after the CV D was emptied: J0 is still COMPLETED, and a
    new rendering of D fails. *)
Definition world_edited : @World LocalStorageBackend :=
  mkWorld edited_tables edited_tables (storage world_done) None 1003 1
          (log world_done).

(** The record that [process_render_job] returns for J0 in [world_edited]. *)
Definition job_failed_with_output : RenderJob.t :=
  RenderJob.mk "J0" "D" "U" "failed" "pdf"
    (Some "renders/U/D/J0/cv.pdf") (Some "/api/v1/files/renders/U/D/J0/cv.pdf")
    (Some 10) (Some "invalid typst") (Some 1003) (Some 1004) 1000.

(** The PDF that the sample engine makes of [sample_cv]. *)
Definition sample_pdf : list Byte.byte :=
  (list_byte_of_string "%PDF" ++ list_byte_of_string "cv: {}")%list.

(** X20. The monthly limit by tier: 10 for free, 100 for pro, 1000 for
    enterprise, and 10 again for any other tier string; it is never below
    10, so a user with no render this month can always render. *)
Theorem render_limit_by_tier (u : User.t) :
  (User.tier u = value FREE -> User.render_limit u = 10) /\
  (User.tier u = value PRO -> User.render_limit u = 100) /\
  (User.tier u = value ENTERPRISE -> User.render_limit u = 1000) /\
  (User.tier u <> value FREE -> User.tier u <> value PRO ->
   User.tier u <> value ENTERPRISE -> User.render_limit u = 10) /\
  10 <= User.render_limit u /\
  (User.renders_this_month u = 0 -> User.can_render u = true).
Proof.
  assert (Hfree : User.tier u = value FREE -> User.render_limit u = 10).
  { unfold User.render_limit. intros ->. reflexivity. }
  assert (Hpro : User.tier u = value PRO -> User.render_limit u = 100).
  { unfold User.render_limit. intros ->. reflexivity. }
  assert (Hent : User.tier u = value ENTERPRISE -> User.render_limit u = 1000).
  { unfold User.render_limit. intros ->. reflexivity. }
  assert (Hother : User.tier u <> value FREE -> User.tier u <> value PRO ->
                   User.tier u <> value ENTERPRISE -> User.render_limit u = 10).
  { unfold User.render_limit, User.limits. intros H1 H2 H3.
    rewrite lookup_insert_ne by auto. rewrite lookup_insert_ne by auto.
    rewrite lookup_singleton_ne by auto. reflexivity. }
  assert (Hmin : 10 <= User.render_limit u).
  { destruct (decide (User.tier u = value FREE)) as [E|N1];
      [rewrite (Hfree E); lia|].
    destruct (decide (User.tier u = value PRO)) as [E|N2];
      [rewrite (Hpro E); lia|].
    destruct (decide (User.tier u = value ENTERPRISE)) as [E|N3];
      [rewrite (Hent E); lia|].
    rewrite (Hother N1 N2 N3). lia. }
  repeat split; auto.
  intros H0. unfold User.can_render. rewrite H0. apply Z.ltb_lt. lia.
Qed.

(** * Properties *)

Section WebProperties.
Context {B : Type} {backend : StorageBackend B} {engine : RenderCV}.
Variable uuid4 : nat -> string.

(** Unfolds the operations of the model down to the world they act on; the
    lookups in the tables and the calls of the engine and of the backend
    are left in place. *)
Ltac run :=
  cbv [process_render_job tasks_process_render_job create_render_job
       _render_cv save_render_output get_render_output delete_render_output
       select_job select_cv select_cv_of select_job_of job_set user_set
       job_obj user_obj db_add refresh db_delete commit rollback emit now
       generate_uuid on_storage of_result open_session enqueue_render_job
       with_session get_db admission render_cv render_cv_sync
       download_render_output delete_render_job get_render_job
       bind mbind M_bind mret M_ret ret gets modify raise try_except
       session database storage redis clock entropy log
       users cvs render_jobs new_events].

(** Unfolds the endpoints only, keeping [admission] and
    [process_render_job] as calls. *)
Ltac run_endpoint :=
  cbv [get_db render_cv render_cv_sync commit rollback enqueue_render_job
       bind mbind M_bind mret M_ret ret gets modify raise try_except].

(** Opens a world into its fields. *)
Ltac open_world w :=
  let us := fresh "us" in
  let cs := fresh "cs" in
  let js := fresh "js" in
  let db := fresh "db" in
  destruct w as [[us cs js] db ? ? ? ? ?]; simpl in *.

(** Splits on the outcome of the renderer, of [save] and of [get_url]. *)
Ltac split_render :=
  destruct (_render_cv_sync _ _ _ _) as [?cnt|?e];
    [destruct (save _ _ _ _) as [[?p|?e] ?b];
       [destruct (get_url _ _ _) as [[?u|?e] ?b]|]|].

Ltac split_worker_render :=
  destruct (tasks__render_cv_sync _ _ _ _) as [?cnt|?e];
    [destruct (save _ _ _ _) as [[?p|?e] ?b];
       [destruct (get_url _ _ _) as [[?u|?e] ?b]|]|].

(** The events a run appends. *)
Ltac new_log :=
  rewrite <- ?app_assoc, ?drop_app_length;
  unfold committed_statuses, commits; simpl.

Lemma process_render_job_not_found (w : @World B) (job_id : string) :
  render_jobs (session w) !! job_id = None ->
  process_render_job job_id w
  = (Raise (ValueError ("Render job " +:+ job_id +:+ " not found")), w).
Proof. open_world w. intros Hj. run. rewrite Hj. reflexivity. Qed.

(** The path of a job whose CV is gone: one commit, no rendering. *)
Lemma process_render_job_no_cv
    (w : @World B) (job_id : string) (job : RenderJob.t) :
  render_jobs (session w) !! job_id = Some job ->
  cvs (session w) !! RenderJob.cv_id job = None ->
  exists w',
    process_render_job job_id w
    = (Ok (RenderJob.set_error_message (Some "CV not found")
             (RenderJob.set_status (value FAILED) job)), w') /\
    render_jobs (session w') !! job_id
    = Some (RenderJob.set_error_message (Some "CV not found")
              (RenderJob.set_status (value FAILED) job)) /\
    database w' = session w' /\
    committed_statuses job_id (new_events w w') = [value FAILED] /\
    filter is_converter_call (new_events w w') = [] /\
    filter is_backend_save (new_events w w') = [].
Proof.
  open_world w. intros Hj Hc. run. rewrite Hj, Hc.
  rewrite !lookup_alter_eq, Hj. simpl.
  eexists. split; [reflexivity|]. simpl. new_log.
  rewrite !lookup_alter_eq, Hj. simpl. repeat split; reflexivity.
Qed.

(** The path of a job whose CV exists: PROCESSING is committed, the
    renderer is called once, and the outcome is committed as COMPLETED or
    FAILED. *)
Lemma process_render_job_runs
    (w : @World B) (job_id : string) (job : RenderJob.t) (cv : CV.t) :
  render_jobs (session w) !! job_id = Some job ->
  cvs (session w) !! RenderJob.cv_id job = Some cv ->
  exists job' w',
    process_render_job job_id w = (Ok job', w') /\
    render_jobs (session w') !! job_id = Some job' /\
    database w' = session w' /\
    terminal (RenderJob.status job') = true /\
    (RenderJob.id job' = RenderJob.id job /\
     RenderJob.cv_id job' = RenderJob.cv_id job /\
     RenderJob.user_id job' = RenderJob.user_id job /\
     RenderJob.output_format job' = RenderJob.output_format job /\
     RenderJob.created_at job' = RenderJob.created_at job) /\
    RenderJob.started_at job' = Some (clock w) /\
    RenderJob.completed_at job' = Some (clock w + 1) /\
    (RenderJob.status job' = value COMPLETED ->
     RenderJob.output_path job'
     = Some (_generate_path (CV.user_id cv) (CV.id cv) (RenderJob.id job)
               ("cv." +:+ lower (RenderJob.output_format job)))) /\
    committed_statuses job_id (new_events w w')
    = [value PROCESSING; RenderJob.status job'] /\
    filter is_converter_call (new_events w w')
    = [ConverterCall (CV.yaml_content cv) (CV.design_override cv)
         (CV.locale_override cv) (RenderJob.output_format job)].
Proof.
  open_world w. intros Hj Hc. run. rewrite Hj, Hc.
  split_render.
  all: rewrite !lookup_alter_eq, Hj; simpl; rewrite lookup_insert_eq.
  all: do 2 eexists; split; [reflexivity|]; simpl; new_log.
  all: rewrite ?lookup_alter_eq, ?lookup_insert_eq, ?Hj; simpl.
  all: repeat split; try reflexivity; try discriminate.
  all: f_equal; symmetry; apply insert_id.
  all: rewrite !lookup_alter_eq, Hj; reflexivity.
Qed.

(** [process_render_job] never writes to a user row. *)
Lemma process_render_job_users
    (w w' : @World B) (job_id : string) (r : result RenderJob.t)
    (U : gmap string User.t) :
  users (session w) = U ->
  users (database w) = U ->
  process_render_job job_id w = (r, w') ->
  users (session w') = U /\ users (database w') = U.
Proof.
  open_world w. destruct db as [dus dcs djs]. simpl. intros Hs Hd. run.
  destruct (js !! job_id) as [job|] eqn:Hj;
    [destruct (cs !! RenderJob.cv_id job) as [cv|] eqn:Hc|].
  - split_render.
    all: rewrite !lookup_alter_eq, Hj; simpl; rewrite lookup_insert_eq.
    all: intros [= <- <-]; simpl; auto.
  - rewrite !lookup_alter_eq, Hj. simpl. intros [= <- <-]. simpl. auto.
  - intros [= <- <-]. simpl. auto.
Qed.

(** Neither does the worker. *)
Lemma tasks_process_render_job_users
    (w w' : @World B) (job_id : string) (r : result (list (string * string))) :
  tasks_process_render_job job_id w = (r, w') ->
  users (database w') = users (database w).
Proof.
  open_world w. destruct db as [dus dcs djs]. simpl. run.
  destruct (djs !! job_id) as [job|] eqn:Hj;
    [destruct (dcs !! RenderJob.cv_id job) as [cv|] eqn:Hc|].
  - split_worker_render.
    all: intros [= <- <-]; reflexivity.
  - intros [= <- <-]. reflexivity.
  - intros [= <- <-]. reflexivity.
Qed.

(** The worker's [process_render_job] on a job whose CV exists has the same
    shape: it reads the committed rows, commits PROCESSING, calls the
    renderer once and commits COMPLETED or FAILED, whatever the status of the
    job was. *)
Lemma tasks_process_render_job_runs
    (w : @World B) (job_id : string) (job : RenderJob.t) (cv : CV.t) :
  render_jobs (database w) !! job_id = Some job ->
  cvs (database w) !! RenderJob.cv_id job = Some cv ->
  exists r w' job',
    tasks_process_render_job job_id w = (Ok r, w') /\
    render_jobs (database w') !! job_id = Some job' /\
    terminal (RenderJob.status job') = true /\
    RenderJob.started_at job' = Some (clock w) /\
    RenderJob.completed_at job' = Some (clock w + 1) /\
    committed_statuses job_id (new_events w w')
    = [value PROCESSING; RenderJob.status job'] /\
    filter is_converter_call (new_events w w')
    = [ConverterCall (CV.yaml_content cv) (CV.design_override cv)
         (CV.locale_override cv) (RenderJob.output_format job)].
Proof.
  open_world w. destruct db as [dus dcs djs]. simpl. intros Hj Hc.
  run. rewrite Hj, Hc. split_worker_render.
  all: do 3 eexists; split; [reflexivity|]; simpl; new_log.
  all: rewrite ?lookup_alter_eq, ?Hj; simpl.
  all: repeat split; reflexivity.
Qed.

(** A successful admission: the job row is committed first, the render
    count second. *)
Lemma admission_runs
    (w : @World B) (cv_id : string) (req : RenderRequest)
    (current_user : string) (u : User.t) (cv : CV.t) :
  users (session w) !! current_user = Some u ->
  User.can_render u = true ->
  cvs (session w) !! cv_id = Some cv ->
  CV.user_id cv = User.id u ->
  render_jobs (session w) !! uuid4 (entropy w) = None ->
  exists w',
    admission uuid4 cv_id req current_user w
    = (Ok (new_job uuid4 w cv (req_output_format req)), w') /\
    render_jobs (session w') !! uuid4 (entropy w)
    = Some (new_job uuid4 w cv (req_output_format req)) /\
    cvs (session w') = cvs (session w) /\
    database w' = session w' /\
    User.renders_this_month <$> users (session w') !! current_user
    = Some (User.renders_this_month u + 1) /\
    redis w' = redis w /\
    new_events w w'
    = [Commit (mkTables (users (session w)) (cvs (session w))
                 (<[uuid4 (entropy w)
                    := new_job uuid4 w cv (req_output_format req)]>
                    (render_jobs (session w))));
       Commit (session w')].
Proof.
  open_world w. intros Hu Hlim Hc Hown Hfresh. unfold new_job. run.
  rewrite Hu, Hlim. simpl. rewrite Hc, <- Hown, String.eqb_refl, Hfresh.
  rewrite lookup_insert_eq. simpl. rewrite lookup_insert_eq.
  rewrite lookup_alter_eq, Hu. simpl.
  destruct (User.renders_reset_at u) as [t|] eqn:Hr; simpl.
  all: eexists; split; [reflexivity|]; simpl; new_log.
  all: rewrite ?lookup_alter_eq, ?lookup_insert_eq, ?Hu; simpl.
  all: repeat split; reflexivity.
Qed.

Lemma terminal_cases (st : string) :
  terminal st = true -> st = value COMPLETED \/ st = value FAILED.
Proof.
  unfold terminal. intros H. apply orb_true_iff in H.
  destruct H as [H|H]; apply String.eqb_eq in H; auto.
Qed.

(** C1 (amended). [process_render_job] on a job that is already COMPLETED
    or FAILED runs the job again.  It returns the record in a terminal
    state with [id], [cv_id], [user_id], [output_format] and [created_at]
    kept.  When the job's CV exists, PROCESSING is committed first with a new
    [started_at], the converter is called exactly once more and a new
    [completed_at] is set; when the CV is gone, the job is set to FAILED with
    no converter call and no storage write. *)
Theorem process_render_job_reruns_terminal_job
    (w : @World B) (job_id : string) (job : RenderJob.t) :
  render_jobs (session w) !! job_id = Some job ->
  terminal (RenderJob.status job) = true ->
  exists job' w',
    process_render_job job_id w = (Ok job', w') /\
    terminal (RenderJob.status job') = true /\
    (RenderJob.id job' = RenderJob.id job /\
     RenderJob.cv_id job' = RenderJob.cv_id job /\
     RenderJob.user_id job' = RenderJob.user_id job /\
     RenderJob.output_format job' = RenderJob.output_format job /\
     RenderJob.created_at job' = RenderJob.created_at job) /\
    match cvs (session w) !! RenderJob.cv_id job with
    | Some cv =>
        committed_statuses job_id (new_events w w')
        = [value PROCESSING; RenderJob.status job'] /\
        RenderJob.started_at job' = Some (clock w) /\
        RenderJob.completed_at job' = Some (clock w + 1) /\
        filter is_converter_call (new_events w w')
        = [ConverterCall (CV.yaml_content cv) (CV.design_override cv)
             (CV.locale_override cv) (RenderJob.output_format job)]
    | None =>
        RenderJob.status job' = value FAILED /\
        filter is_converter_call (new_events w w') = [] /\
        filter is_backend_save (new_events w w') = []
    end.
Proof.
  intros Hj _.
  destruct (cvs (session w) !! RenderJob.cv_id job) as [cv|] eqn:Hc.
  - destruct (process_render_job_runs w job_id job cv Hj Hc)
      as (job' & w' & Hrun & _ & _ & Hterm & Hid & Hst & Hco & _ & Hlog & Hcall).
    exists job', w'. auto 10.
  - destruct (process_render_job_no_cv w job_id job Hj Hc)
      as (w' & Hrun & _ & _ & _ & Hcall & Hsave).
    eexists _, w'. split; [exact Hrun|]. simpl. auto 10.
Qed.


(** C5 (amended). The path recorded for a completed render of a job in
    format pdf, png, html or markdown is
    [renders/{user_id}/{cv_id}/{job_id}/cv.{format}], with the user and the
    identifier of the CV and the identifier of the job: the extension is the
    format itself, [markdown] for markdown. *)
Theorem completed_render_output_path
    (w w' : @World B) (job_id : string) (job job' : RenderJob.t) (cv : CV.t)
    (f : OutputFormat) :
  render_jobs (session w) !! job_id = Some job ->
  cvs (session w) !! RenderJob.cv_id job = Some cv ->
  RenderJob.output_format job = value f ->
  process_render_job job_id w = (Ok job', w') ->
  RenderJob.status job' = value COMPLETED ->
  RenderJob.output_path job'
  = Some (_generate_path (CV.user_id cv) (CV.id cv) (RenderJob.id job)
            ("cv." +:+ value f)).
Proof.
  intros Hj Hc Hf Hrun Hdone.
  destruct (process_render_job_runs w job_id job cv Hj Hc)
    as (job1 & w1 & Hrun1 & _ & _ & _ & _ & _ & _ & Hpath & _).
  rewrite Hrun in Hrun1. injection Hrun1 as <- <-.
  rewrite (Hpath Hdone), Hf. destruct f; reflexivity.
Qed.

(** C6 (amended). When the job's CV exists and the rendering, or the saving
    of its output, raises an error [e], [process_render_job] returns
    normally: the job is committed as FAILED with [str e] as its error
    message and [completed_at] set.  Its output path, URL and size are not
    assigned: they are as they were, and so remain absent for a job that had
    none, while a job that had them keeps them. *)
Theorem process_render_job_captures_failure
    (w : @World B) (job_id : string) (job : RenderJob.t) (cv : CV.t)
    (e : exn) :
  render_jobs (session w) !! job_id = Some job ->
  cvs (session w) !! RenderJob.cv_id job = Some cv ->
  render_or_save_raises (storage w) job cv e ->
  exists job' w',
    process_render_job job_id w = (Ok job', w') /\
    render_jobs (database w') !! job_id = Some job' /\
    RenderJob.status job' = value FAILED /\
    RenderJob.error_message job' = Some (str e) /\
    RenderJob.completed_at job' = Some (clock w + 1) /\
    (RenderJob.output_path job' = RenderJob.output_path job /\
     RenderJob.output_url job' = RenderJob.output_url job /\
     RenderJob.file_size_bytes job' = RenderJob.file_size_bytes job) /\
    (RenderJob.output_path job = None ->
     RenderJob.output_url job = None ->
     RenderJob.file_size_bytes job = None ->
     RenderJob.output_path job' = None /\
     RenderJob.output_url job' = None /\
     RenderJob.file_size_bytes job' = None).
Proof.
  open_world w. intros Hj Hc He. unfold render_or_save_raises in He.
  run. rewrite Hj, Hc. split_render; try contradiction; subst.
  all: rewrite !lookup_alter_eq, Hj; simpl; rewrite lookup_insert_eq.
  all: do 2 eexists; split; [reflexivity|]; simpl.
  all: rewrite !lookup_alter_eq, Hj; repeat split; auto.
Qed.

(** C8. The path that [save_render_output] produces depends on the user,
    the CV, the job and the format only: two calls on the same four values
    return the same path, whatever the content, the state of the storage and
    of the database, and the order of the calls. *)
Theorem save_render_output_path_deterministic
    (w1 w2 w1' w2' : @World B) (content1 content2 : list Byte.byte)
    (user_id cv_id job_id output_format : string)
    (path1 path2 url1 url2 : string) (size1 size2 : Z) :
  save_render_output content1 user_id cv_id job_id output_format w1
  = (Ok (path1, url1, size1), w1') ->
  save_render_output content2 user_id cv_id job_id output_format w2
  = (Ok (path2, url2, size2), w2') ->
  path1 = path2 /\
  path1 = _generate_path user_id cv_id job_id ("cv." +:+ lower output_format).
Proof.
  open_world w1. open_world w2. run.
  destruct (save content1 _ _ _) as [[p1|e1] b1];
    [destruct (get_url _ _ b1) as [[u1|e1] b1']|]; try discriminate.
  destruct (save content2 _ _ _) as [[p2|e2] b2];
    [destruct (get_url _ _ b2) as [[u2|e2] b2']|]; try discriminate.
  intros [= <- _ _ _] [= <- _ _ _]. split; reflexivity.
Qed.

(** C9. The download of a COMPLETED job whose stored output is the empty
    byte string answers 404, "Output file not found in storage": the content
    read from the storage is tested for truthiness, and [b''] is falsy. *)
Theorem download_empty_output_not_found
    (w : @World B) (job_id current_user path : string) (job : RenderJob.t)
    (b' : B) :
  render_jobs (session w) !! job_id = Some job ->
  RenderJob.user_id job = current_user ->
  RenderJob.status job = value COMPLETED ->
  RenderJob.output_path job = Some path ->
  path <> "" ->
  get path (storage w) = (Ok (Some []), b') ->
  fst (download_render_output job_id current_user w)
  = Raise (HTTPException HTTP_404_NOT_FOUND
                         "Output file not found in storage").
Proof.
  open_world w. intros Hj Hu Hst Hp Hne Hget. run.
  rewrite Hj, Hu, String.eqb_refl, Hst, Hp. simpl.
  apply String.eqb_neq in Hne. rewrite Hne. simpl.
  rewrite Hget. reflexivity.
Qed.

(** [process_render_job] never answers with the 429 of the render limit. *)
Lemma process_render_job_not_429 (w : @World B) (job_id : string) :
  is_quota_exceeded (fst (process_render_job job_id w)) = false.
Proof.
  open_world w. run.
  destruct (js !! job_id) as [job|] eqn:Hj;
    [destruct (cs !! RenderJob.cv_id job) as [cv|] eqn:Hc|].
  - split_render.
    all: rewrite !lookup_alter_eq, Hj; simpl; rewrite lookup_insert_eq.
    all: reflexivity.
  - rewrite !lookup_alter_eq, Hj. reflexivity.
  - reflexivity.
Qed.

(** An endpoint answers 429 exactly when its admission steps do. *)
Lemma endpoints_quota
    (w : @World B) (cv_id : string) (req : RenderRequest)
    (current_user : string) :
  is_quota_exceeded (fst (render_cv uuid4 cv_id req current_user w))
  = is_quota_exceeded (fst (admission uuid4 cv_id req current_user w)) /\
  is_quota_exceeded (fst (render_cv_sync uuid4 cv_id req current_user w))
  = is_quota_exceeded (fst (admission uuid4 cv_id req current_user w)).
Proof.
  run_endpoint.
  destruct (admission uuid4 cv_id req current_user w) as [[job|e] w1]; simpl;
    [|split; reflexivity].
  pose proof (process_render_job_not_429 w1 (RenderJob.id job)) as Hp.
  split.
  - destruct (redis w1); simpl; [reflexivity|].
    destruct (process_render_job (RenderJob.id job) w1) as [[job'|e] w2];
      simpl in Hp |- *; [reflexivity|].
    destruct e; exact Hp.
  - destruct (process_render_job (RenderJob.id job) w1) as [[job'|e] w2];
      simpl in Hp |- *.
    + destruct (String.eqb (RenderJob.status job') (value FAILED)); reflexivity.
    + destruct e; exact Hp.
Qed.

Lemma render_limit_free (u : User.t) :
  User.tier u = value FREE -> User.render_limit u = 10.
Proof. unfold User.render_limit. intros ->. reflexivity. Qed.

(** C3 (amended). A successful admission does two commits and nothing
    else: the first commit holds the PENDING job row and the render count as
    it was, the second holds the job row and the render count incremented by
    one.  The two writes are not one transaction; the job is neither queued
    nor rendered before the second commit, after which both writes are in
    the database. *)
Theorem admission_commits_job_then_count
    (w : @World B) (cv_id : string) (req : RenderRequest)
    (current_user : string) (u : User.t) (cv : CV.t) :
  users (session w) !! current_user = Some u ->
  User.can_render u = true ->
  cvs (session w) !! cv_id = Some cv ->
  CV.user_id cv = User.id u ->
  render_jobs (session w) !! uuid4 (entropy w) = None ->
  exists job w' t1 t2,
    admission uuid4 cv_id req current_user w = (Ok job, w') /\
    RenderJob.status job = value PENDING /\
    new_events w w' = [Commit t1; Commit t2] /\
    render_jobs t1 !! RenderJob.id job = Some job /\
    User.renders_this_month <$> users t1 !! current_user
    = Some (User.renders_this_month u) /\
    render_jobs t2 !! RenderJob.id job = Some job /\
    User.renders_this_month <$> users t2 !! current_user
    = Some (User.renders_this_month u + 1) /\
    database w' = t2.
Proof.
  intros Hu Hlim Hc Hown Hfresh.
  destruct (admission_runs w cv_id req current_user u cv Hu Hlim Hc Hown Hfresh)
    as (w' & Hrun & Hjob & _ & Hdb & Hcount & _ & Hevents).
  eexists _, w', _, _. split; [exact Hrun|]. split; [reflexivity|].
  split; [exact Hevents|]. simpl.
  rewrite lookup_insert_eq, Hu. auto.
Qed.

(** C4. The admission steps, and with them [render_cv] and
    [render_cv_sync], answer 429 exactly when the user's
    [renders_this_month] has reached the [render_limit] of the tier, and an
    admission that succeeds leaves [renders_this_month] one higher, in the
    session and in the database.  A FREE user at 10 renders is refused; at 9,
    with a CV of the user's own, the admission succeeds and the count
    becomes 10. *)
Theorem admission_quota
    (w : @World B) (cv_id : string) (req : RenderRequest)
    (current_user : string) (u : User.t) :
  users (session w) !! current_user = Some u ->
  (is_quota_exceeded (fst (admission uuid4 cv_id req current_user w)) = true
   <-> User.render_limit u <= User.renders_this_month u) /\
  (is_quota_exceeded (fst (render_cv uuid4 cv_id req current_user w)) = true
   <-> User.render_limit u <= User.renders_this_month u) /\
  (is_quota_exceeded (fst (render_cv_sync uuid4 cv_id req current_user w))
   = true
   <-> User.render_limit u <= User.renders_this_month u) /\
  (forall job w',
     admission uuid4 cv_id req current_user w = (Ok job, w') ->
     User.renders_this_month <$> users (session w') !! current_user
     = Some (User.renders_this_month u + 1) /\
     User.renders_this_month <$> users (database w') !! current_user
     = Some (User.renders_this_month u + 1)) /\
  (User.tier u = value FREE ->
   User.renders_this_month u = 10 ->
   is_quota_exceeded (fst (admission uuid4 cv_id req current_user w)) = true) /\
  (User.tier u = value FREE ->
   User.renders_this_month u = 9 ->
   forall cv,
     cvs (session w) !! cv_id = Some cv ->
     CV.user_id cv = User.id u ->
     render_jobs (session w) !! uuid4 (entropy w) = None ->
     exists job w',
       admission uuid4 cv_id req current_user w = (Ok job, w') /\
       User.renders_this_month <$> users (database w') !! current_user
       = Some 10).
Proof.
  intros Hu.
  assert (Hiff :
    is_quota_exceeded (fst (admission uuid4 cv_id req current_user w)) = true
    <-> User.render_limit u <= User.renders_this_month u).
  { open_world w. run. rewrite Hu. unfold User.can_render.
    destruct (User.renders_this_month u <? User.render_limit u) eqn:Hlt; simpl.
    - apply Z.ltb_lt in Hlt.
      assert (Hno : forall r : result RenderJob.t * @World B,
                 is_quota_exceeded (fst r) = false ->
                 is_quota_exceeded (fst r) = true
                 <-> User.render_limit u <= User.renders_this_month u).
      { intros r ->. split; [discriminate | lia]. }
      apply Hno.
      destruct (cs !! cv_id) as [cv|]; [|reflexivity].
      destruct (String.eqb (CV.user_id cv) (User.id u)); [|reflexivity].
      destruct (js !! uuid4 entropy0); [reflexivity|].
      rewrite lookup_insert_eq. simpl. rewrite lookup_insert_eq.
      rewrite lookup_alter_eq, Hu. simpl.
      destruct (User.renders_reset_at u); reflexivity.
    - apply Z.ltb_ge in Hlt. split; [intros _; exact Hlt | reflexivity]. }
  split; [exact Hiff|].
  destruct (endpoints_quota w cv_id req current_user) as [Hasync Hsync].
  split; [rewrite Hasync; exact Hiff|]. split; [rewrite Hsync; exact Hiff|].
  split; [|split].
  - open_world w. intros job w'. run. rewrite Hu.
    destruct (User.can_render u); simpl; [|discriminate].
    destruct (cs !! cv_id) as [cv|]; [|discriminate].
    destruct (String.eqb (CV.user_id cv) (User.id u)); [|discriminate].
    destruct (js !! uuid4 entropy0); [discriminate|].
    rewrite lookup_insert_eq. simpl. rewrite lookup_insert_eq.
    rewrite lookup_alter_eq, Hu. simpl.
    destruct (User.renders_reset_at u); simpl.
    all: intros [= <- <-]; simpl.
    all: rewrite ?lookup_alter_eq, Hu; auto.
  - intros Htier Hten. apply Hiff. rewrite (render_limit_free u Htier). lia.
  - intros Htier Hnine cv Hc Hown Hfresh.
    assert (Hlim : User.can_render u = true).
    { unfold User.can_render. rewrite (render_limit_free u Htier), Hnine.
      reflexivity. }
    destruct (admission_runs w cv_id req current_user u cv Hu Hlim Hc Hown Hfresh)
      as (w' & Hrun & _ & _ & Hdb & Hcount & _).
    eexists _, w'. split; [exact Hrun|].
    rewrite Hdb, Hcount, Hnine. reflexivity.
Qed.

(** C10. Every admitted request costs one render, whatever becomes of the
    job: after [render_cv_sync] and after [render_cv], run under [get_db],
    the committed [renders_this_month] is one higher than before, also when
    the job ends FAILED and the endpoint raises; and neither
    [process_render_job] nor the worker writes to a user row. *)
Theorem admitted_render_costs_one
    (w : @World B) (cv_id : string) (req : RenderRequest)
    (current_user : string) (u : User.t) (cv : CV.t) :
  users (session w) !! current_user = Some u ->
  User.can_render u = true ->
  cvs (session w) !! cv_id = Some cv ->
  CV.user_id cv = User.id u ->
  render_jobs (session w) !! uuid4 (entropy w) = None ->
  (User.renders_this_month
   <$> users (database
                (snd (get_db (render_cv_sync uuid4 cv_id req current_user) w)))
       !! current_user
   = Some (User.renders_this_month u + 1)) /\
  (User.renders_this_month
   <$> users (database
                (snd (get_db (render_cv uuid4 cv_id req current_user) w)))
       !! current_user
   = Some (User.renders_this_month u + 1)) /\
  (forall job_id w0 r w',
     process_render_job job_id w0 = (r, w') ->
     users (database w0) = users (session w0) ->
     users (session w') = users (session w0) /\
     users (database w') = users (session w0)) /\
  (forall job_id (w0 : @World B) r w',
     tasks_process_render_job job_id w0 = (r, w') ->
     users (database w') = users (database w0)).
Proof.
  intros Hu Hlim Hc Hown Hfresh.
  destruct (admission_runs w cv_id req current_user u cv Hu Hlim Hc Hown Hfresh)
    as (w1 & Hrun & _ & _ & Hdb & Hcount & Hredis & _).
  assert (Hproc : forall job_id,
    users (session (snd (process_render_job job_id w1))) = users (session w1)
    /\ users (database (snd (process_render_job job_id w1)))
       = users (session w1)).
  { intros job_id.
    destruct (process_render_job job_id w1) as [r w2] eqn:Hp.
    apply (process_render_job_users w1 w2 job_id r (users (session w1))) in Hp;
      [exact Hp | reflexivity | rewrite Hdb; reflexivity]. }
  split; [|split; [|split]].
  - run_endpoint. rewrite Hrun.
    specialize (Hproc (RenderJob.id (new_job uuid4 w cv (req_output_format req)))).
    destruct (process_render_job _ w1) as [[job|e] w2]; simpl in Hproc |- *.
    + destruct (String.eqb (RenderJob.status job) (value FAILED)); simpl.
      * destruct Hproc as [_ ->]. exact Hcount.
      * destruct Hproc as [-> _]. exact Hcount.
    + destruct Hproc as [_ ->]. exact Hcount.
  - run_endpoint. rewrite Hrun.
    specialize (Hproc (RenderJob.id (new_job uuid4 w cv (req_output_format req)))).
    destruct (redis w1) as [q|]; simpl.
    + exact Hcount.
    + destruct (process_render_job _ w1) as [[job|e] w2]; simpl in Hproc |- *.
      * destruct Hproc as [-> _]. exact Hcount.
      * destruct Hproc as [_ ->]. exact Hcount.
  - intros job_id w0 r w' Hp Heq.
    apply (process_render_job_users w0 w' job_id r (users (session w0))) in Hp;
      [exact Hp | reflexivity | exact Heq].
  - intros job_id w0 r w' Hp.
    exact (tasks_process_render_job_users w0 w' job_id r Hp).
Qed.

(** ** Further properties of the service, the worker and the endpoints *)

Lemma process_render_job_returns_terminal
    (w w' : @World B) (job_id : string) (job' : RenderJob.t) :
  process_render_job job_id w = (Ok job', w') ->
  terminal (RenderJob.status job') = true /\
  render_jobs (database w') !! job_id = Some job' /\
  database w' = session w'.
Proof.
  intros Hrun.
  destruct (render_jobs (session w) !! job_id) as [job|] eqn:Hj.
  - destruct (cvs (session w) !! RenderJob.cv_id job) as [cv|] eqn:Hc.
    + destruct (process_render_job_runs w job_id job cv Hj Hc)
        as (job1 & w1 & Hrun1 & Hs & Hdb & Hterm & _).
      rewrite Hrun in Hrun1. injection Hrun1 as <- <-.
      rewrite Hdb. auto.
    + destruct (process_render_job_no_cv w job_id job Hj Hc)
        as (w1 & Hrun1 & Hs & Hdb & _).
      rewrite Hrun in Hrun1. injection Hrun1 as -> <-.
      rewrite Hdb. auto.
  - rewrite (process_render_job_not_found w job_id Hj) in Hrun. discriminate.
Qed.

(** X5. [process_render_job] raises exactly when there is no job of that
    identifier; it then raises [ValueError] and changes nothing.  Whenever it
    returns, the job it returns is COMPLETED or FAILED, it is the committed
    row, and the session holds no uncommitted change. *)
Theorem process_render_job_raises_iff_job_missing
    (w : @World B) (job_id : string) :
  (render_jobs (session w) !! job_id = None
   <-> exists e, fst (process_render_job job_id w) = Raise e) /\
  (render_jobs (session w) !! job_id = None ->
   process_render_job job_id w
   = (Raise (ValueError ("Render job " +:+ job_id +:+ " not found")), w)) /\
  (forall job' w',
     process_render_job job_id w = (Ok job', w') ->
     terminal (RenderJob.status job') = true /\
     render_jobs (database w') !! job_id = Some job' /\
     database w' = session w').
Proof.
  split; [|split].
  - split.
    + intros Hj. rewrite (process_render_job_not_found w job_id Hj). eauto.
    + intros [e He].
      destruct (render_jobs (session w) !! job_id) as [job|] eqn:Hj;
        [|reflexivity].
      exfalso.
      destruct (cvs (session w) !! RenderJob.cv_id job) as [cv|] eqn:Hc.
      * destruct (process_render_job_runs w job_id job cv Hj Hc)
          as (job1 & w1 & Hrun1 & _).
        rewrite Hrun1 in He. discriminate.
      * destruct (process_render_job_no_cv w job_id job Hj Hc)
          as (w1 & Hrun1 & _).
        rewrite Hrun1 in He. discriminate.
  - apply process_render_job_not_found.
  - intros job' w'. apply process_render_job_returns_terminal.
Qed.

(** X6. When the rendering and the saving succeed, [process_render_job]
    commits the job as COMPLETED with the generated path, the URL that the
    backend gave for it, the length of the rendered content as its size, and
    both timestamps.  The backend was asked to save exactly the rendered
    content at that path, once.  The error message is not assigned: a job
    that had one keeps it. *)
Theorem process_render_job_completes
    (w : @World B) (job_id : string) (job : RenderJob.t) (cv : CV.t)
    (content : list Byte.byte) (p url : string) (b1 b2 : B) :
  let fmt := RenderJob.output_format job in
  let path :=
    _generate_path (CV.user_id cv) (CV.id cv) (RenderJob.id job)
                   ("cv." +:+ lower fmt) in
  render_jobs (session w) !! job_id = Some job ->
  cvs (session w) !! RenderJob.cv_id job = Some cv ->
  _render_cv_sync (CV.yaml_content cv) (CV.design_override cv)
                  (CV.locale_override cv) fmt = Ok content ->
  save content path
       (Some (default "application/octet-stream" (content_types !! lower fmt)))
       (storage w) = (Ok p, b1) ->
  get_url path None b1 = (Ok url, b2) ->
  exists job' w',
    process_render_job job_id w = (Ok job', w') /\
    render_jobs (database w') !! job_id = Some job' /\
    RenderJob.status job' = value COMPLETED /\
    RenderJob.output_path job' = Some path /\
    RenderJob.output_url job' = Some url /\
    RenderJob.file_size_bytes job' = Some (len content) /\
    RenderJob.started_at job' = Some (clock w) /\
    RenderJob.completed_at job' = Some (clock w + 1) /\
    RenderJob.error_message job' = RenderJob.error_message job /\
    storage w' = b2 /\
    filter is_backend_save (new_events w w') = [BackendSave path content].
Proof.
  intros fmt path. subst fmt path.
  open_world w. intros Hj Hc Hrender Hsave Hurl.
  run. rewrite Hj, Hc, Hrender, Hsave, Hurl.
  rewrite !lookup_alter_eq, Hj; simpl; rewrite lookup_insert_eq.
  do 2 eexists; split; [reflexivity|]; simpl; new_log.
  rewrite !lookup_alter_eq, Hj. repeat split; reflexivity.
Qed.

(** X7. The worker's [process_render_job] never raises: on every path it
    returns a dictionary.  For an unknown job it returns the error "Job ...
    not found", commits nothing and calls neither the renderer nor the
    backend. *)
Theorem tasks_process_render_job_never_raises
    (w : @World B) (job_id : string) :
  (exists r w', tasks_process_render_job job_id w = (Ok r, w')) /\
  (render_jobs (database w) !! job_id = None ->
   exists w',
     tasks_process_render_job job_id w
     = (Ok [("error", "Job " +:+ job_id +:+ " not found")], w') /\
     database w' = database w /\
     storage w' = storage w /\
     new_events w w' = []).
Proof.
  open_world w. destruct db as [dus dcs djs]. simpl. split.
  - run.
    destruct (djs !! job_id) as [job|] eqn:Hj;
      [destruct (dcs !! RenderJob.cv_id job) as [cv|] eqn:Hc|]; eauto.
    split_worker_render; eauto.
  - intros Hj. run. rewrite Hj. eexists. split; [reflexivity|]. simpl.
    repeat split; try reflexivity. apply drop_all.
Qed.

(** X8. [create_render_job] with an unused identifier commits a PENDING
    job of the CV and of its user in the requested format, with no output,
    no error and no start or completion time; the other job rows, the users
    and the CVs are untouched. *)
Theorem create_render_job_inserts_pending
    (w : @World B) (cv : CV.t) (output_format : OutputFormat) :
  render_jobs (session w) !! uuid4 (entropy w) = None ->
  exists w',
    create_render_job uuid4 cv output_format w
    = (Ok (new_job uuid4 w cv output_format), w') /\
    render_jobs (database w') !! uuid4 (entropy w)
    = Some (new_job uuid4 w cv output_format) /\
    (forall job_id, job_id <> uuid4 (entropy w) ->
       render_jobs (database w') !! job_id = render_jobs (session w) !! job_id) /\
    users (database w') = users (session w) /\
    cvs (database w') = cvs (session w) /\
    storage w' = storage w /\
    entropy w' = S (entropy w).
Proof.
  open_world w. intros Hfresh. unfold new_job. run. simpl. rewrite Hfresh.
  rewrite lookup_insert_eq. simpl. rewrite lookup_insert_eq.
  eexists. split; [reflexivity|]. simpl. rewrite lookup_insert_eq.
  repeat split; try reflexivity.
  intros job_id Hne. rewrite lookup_insert_ne; [reflexivity|]. auto.
Qed.

(** X10. After a request run under [get_db] the session holds no
    uncommitted change.  When the endpoint raises, [get_db] raises the same
    exception, and the database is what the endpoint's own commits left:
    what it wrote after its last commit is dropped. *)
Theorem get_db_commits_or_rolls_back
    {A : Type} (endpoint : M (@World B) A) (w : @World B) :
  session (snd (get_db endpoint w)) = database (snd (get_db endpoint w)) /\
  (forall e w1,
     endpoint w = (Raise e, w1) ->
     fst (get_db endpoint w) = Raise e /\
     database (snd (get_db endpoint w)) = database w1) /\
  (forall a w1,
     endpoint w = (Ok a, w1) ->
     fst (get_db endpoint w) = Ok a /\
     database (snd (get_db endpoint w)) = session w1).
Proof.
  run_endpoint. destruct (endpoint w) as [[a|e] w1]; simpl.
  - split; [reflexivity|]. split; [discriminate|].
    intros a' w1' [= <- <-]. auto.
  - split; [reflexivity|]. split; [|discriminate].
    intros e' w1' [= <- <-]. auto.
Qed.

(** X11. A job of another user is invisible: [get_render_job],
    [download_render_output] and [delete_render_job] answer 404, "Render job
    not found", as for a job that does not exist, and leave the world as it
    was: the storage is not read, nothing is deleted. *)
Theorem other_users_job_is_not_found
    (w : @World B) (job_id current_user : string) (job : RenderJob.t) :
  render_jobs (session w) !! job_id = Some job ->
  RenderJob.user_id job <> current_user ->
  get_render_job job_id current_user w
  = (Raise (HTTPException HTTP_404_NOT_FOUND "Render job not found"), w) /\
  download_render_output job_id current_user w
  = (Raise (HTTPException HTTP_404_NOT_FOUND "Render job not found"), w) /\
  delete_render_job job_id current_user w
  = (Raise (HTTPException HTTP_404_NOT_FOUND "Render job not found"), w).
Proof.
  open_world w. intros Hj Hne. apply String.eqb_neq in Hne.
  run. rewrite Hj, Hne. repeat split; reflexivity.
Qed.

(** X12. The refusals of [download_render_output] for a job of the user's
    own, in the order of the checks: a job that is not COMPLETED gives 400
    with its status in the message; a COMPLETED job with no output path, or
    an empty one, gives 404, "Output file not found", and the storage is not
    read; a path at which the storage has nothing gives 404, "Output file not
    found in storage". *)
Theorem download_render_output_refusals
    (w : @World B) (job_id current_user : string) (job : RenderJob.t) :
  render_jobs (session w) !! job_id = Some job ->
  RenderJob.user_id job = current_user ->
  (RenderJob.status job <> value COMPLETED ->
   download_render_output job_id current_user w
   = (Raise (HTTPException HTTP_400_BAD_REQUEST
               ("Render job is not completed (status: "
                +:+ RenderJob.status job +:+ ")")), w)) /\
  (RenderJob.status job = value COMPLETED ->
   truthy_str (RenderJob.output_path job) = false ->
   download_render_output job_id current_user w
   = (Raise (HTTPException HTTP_404_NOT_FOUND "Output file not found"), w)) /\
  (RenderJob.status job = value COMPLETED ->
   forall path b',
     RenderJob.output_path job = Some path ->
     path <> "" ->
     get path (storage w) = (Ok None, b') ->
     fst (download_render_output job_id current_user w)
     = Raise (HTTPException HTTP_404_NOT_FOUND
                            "Output file not found in storage")).
Proof.
  open_world w. intros Hj Hown. split; [|split].
  - intros Hst. apply String.eqb_neq in Hst.
    run. rewrite Hj, Hown, String.eqb_refl, Hst. reflexivity.
  - intros Hst Hp. run. rewrite Hj, Hown, String.eqb_refl, Hst, Hp. reflexivity.
  - intros Hst path b' Hp Hne Hget. apply String.eqb_neq in Hne.
    run. rewrite Hj, Hown, String.eqb_refl, Hst, Hp. simpl. rewrite Hne. simpl.
    rewrite Hget. reflexivity.
Qed.

Lemma str_in_supported_cases (f : string) :
  str_in f ["pdf"; "png"; "markdown"; "md"; "html"]
  = str_in f ["pdf"; "png"] || str_in f ["markdown"; "md"] || String.eqb f "html".
Proof.
  unfold str_in. simpl.
  destruct (String.eqb f "pdf"), (String.eqb f "png"),
    (String.eqb f "markdown"), (String.eqb f "md"), (String.eqb f "html");
    reflexivity.
Qed.

(** The two copies of [_render_cv_sync] agree on the formats they support. *)
Lemma render_cv_sync_copies_agree
    (yaml_content : string) (design_override locale_override : option string)
    (output_format : string) :
  str_in output_format ["pdf"; "png"; "markdown"; "md"; "html"] = true ->
  tasks__render_cv_sync yaml_content design_override locale_override
                        output_format
  = _render_cv_sync yaml_content design_override locale_override
                    output_format.
Proof.
  rewrite str_in_supported_cases.
  unfold tasks__render_cv_sync, _render_cv_sync, render_cv_sync_with.
  intros Hf.
  destruct (str_in output_format ["pdf"; "png"]);
    [reflexivity|].
  destruct (str_in output_format ["markdown"; "md"]);
    [reflexivity|].
  destruct (String.eqb output_format "html"); [reflexivity|discriminate].
Qed.

(** X13. Edge cases of [_render_cv_sync]: an empty design or locale
    override is treated as no override; the format [md] renders as
    [markdown] does; and no format other than pdf, png, markdown, md and html
    ever yields content. *)
Theorem render_cv_sync_edge_cases
    (yaml_content : string) (design_override locale_override : option string)
    (output_format : string) :
  _render_cv_sync yaml_content (Some "") locale_override output_format
  = _render_cv_sync yaml_content None locale_override output_format /\
  _render_cv_sync yaml_content design_override (Some "") output_format
  = _render_cv_sync yaml_content design_override None output_format /\
  _render_cv_sync yaml_content design_override locale_override "md"
  = _render_cv_sync yaml_content design_override locale_override "markdown" /\
  (str_in output_format ["pdf"; "png"; "markdown"; "md"; "html"] = false ->
   forall content,
     _render_cv_sync yaml_content design_override locale_override
                     output_format <> Ok content).
Proof.
  split; [reflexivity|]. split; [reflexivity|]. split; [reflexivity|].
  rewrite str_in_supported_cases.
  unfold _render_cv_sync, render_cv_sync_with. intros Hf content.
  destruct (str_in output_format ["pdf"; "png"]); [discriminate|].
  destruct (str_in output_format ["markdown"; "md"]); [discriminate|].
  destruct (String.eqb output_format "html"); [discriminate|].
  destruct (loads_if design_override) as [dd|]; [|discriminate].
  destruct (loads_if locale_override) as [ld|]; [|discriminate].
  simpl.
  destruct (read_and_construct_model_from_yaml_string _ _ _) as [m|];
    [|discriminate].
  simpl. destruct (process_model m); discriminate.
Qed.

(** X14. The worker and the service run the same state machine: started
    on the same committed rows, for a job in a supported format, the worker's
    [process_render_job] and the service's leave the same database, the same
    storage, the same clock and the same sequence of commits, renderer calls
    and backend calls. *)
Theorem worker_agrees_with_service (w : @World B) (job_id : string) :
  session w = database w ->
  (forall job,
     render_jobs (database w) !! job_id = Some job ->
     str_in (RenderJob.output_format job)
            ["pdf"; "png"; "markdown"; "md"; "html"] = true) ->
  database (snd (tasks_process_render_job job_id w))
  = database (snd (process_render_job job_id w)) /\
  storage (snd (tasks_process_render_job job_id w))
  = storage (snd (process_render_job job_id w)) /\
  clock (snd (tasks_process_render_job job_id w))
  = clock (snd (process_render_job job_id w)) /\
  log (snd (tasks_process_render_job job_id w))
  = log (snd (process_render_job job_id w)).
Proof.
  open_world w. destruct db as [dus dcs djs]. simpl.
  intros [= -> -> ->] Hfmt. run.
  destruct (djs !! job_id) as [job|] eqn:Hj;
    [destruct (dcs !! RenderJob.cv_id job) as [cv|] eqn:Hc|].
  - rewrite (render_cv_sync_copies_agree _ _ _ _ (Hfmt job eq_refl)).
    split_render.
    all: rewrite !lookup_alter_eq, Hj; simpl; rewrite lookup_insert_eq.
    all: repeat split; reflexivity.
  - rewrite !lookup_alter_eq, Hj. repeat split; reflexivity.
  - repeat split; reflexivity.
Qed.

Lemma process_render_job_found_returns
    (w : @World B) (job_id : string) (job : RenderJob.t) :
  render_jobs (session w) !! job_id = Some job ->
  exists job' w',
    process_render_job job_id w = (Ok job', w') /\
    terminal (RenderJob.status job') = true /\
    RenderJob.id job' = RenderJob.id job /\
    redis w' = redis w.
Proof.
  open_world w. intros Hj. run. rewrite Hj.
  destruct (cs !! RenderJob.cv_id job) as [cv|] eqn:Hc.
  - split_render.
    all: rewrite !lookup_alter_eq, Hj; simpl; rewrite lookup_insert_eq.
    all: do 2 eexists; split; [reflexivity|]; repeat split; reflexivity.
  - rewrite !lookup_alter_eq, Hj.
    do 2 eexists; split; [reflexivity|]; repeat split; reflexivity.
Qed.

Lemma admission_log
    (w : @World B) (cv_id : string) (req : RenderRequest)
    (current_user : string) (u : User.t) (cv : CV.t) :
  users (session w) !! current_user = Some u ->
  User.can_render u = true ->
  cvs (session w) !! cv_id = Some cv ->
  CV.user_id cv = User.id u ->
  render_jobs (session w) !! uuid4 (entropy w) = None ->
  exists t1 t2,
    log (snd (admission uuid4 cv_id req current_user w))
    = (log w ++ [Commit t1; Commit t2])%list.
Proof.
  open_world w. intros Hu Hlim Hc Hown Hfresh. run.
  rewrite Hu, Hlim. simpl. rewrite Hc, <- Hown, String.eqb_refl, Hfresh.
  rewrite lookup_insert_eq. simpl. rewrite lookup_insert_eq.
  rewrite lookup_alter_eq, Hu. simpl.
  destruct (User.renders_reset_at u); simpl.
  all: rewrite <- ?app_assoc; do 2 eexists; reflexivity.
Qed.

(** X15. The dispatch of [render_cv], for an admitted request.  With Redis
    reachable the job's identifier is put at the end of the queue, the
    response shows the job PENDING, and the request did two commits and the
    enqueue and nothing else: no rendering.  With Redis unreachable the job
    is processed in the request and the response shows it COMPLETED or
    FAILED, never PENDING. *)
Theorem render_cv_dispatch
    (w : @World B) (cv_id : string) (req : RenderRequest)
    (current_user : string) (u : User.t) (cv : CV.t) :
  users (session w) !! current_user = Some u ->
  User.can_render u = true ->
  cvs (session w) !! cv_id = Some cv ->
  CV.user_id cv = User.id u ->
  render_jobs (session w) !! uuid4 (entropy w) = None ->
  (forall q,
     redis w = Some q ->
     exists w' t1 t2,
       render_cv uuid4 cv_id req current_user w
       = (Ok (job_response (new_job uuid4 w cv (req_output_format req))), w') /\
       redis w' = Some (q ++ [uuid4 (entropy w)])%list /\
       log w' = (log w ++ [Commit t1; Commit t2; Enqueue (uuid4 (entropy w))])%list) /\
  (redis w = None ->
   exists resp w',
     render_cv uuid4 cv_id req current_user w = (Ok resp, w') /\
     resp_id resp = uuid4 (entropy w) /\
     terminal (resp_status resp) = true).
Proof.
  intros Hu Hlim Hc Hown Hfresh.
  destruct (admission_runs w cv_id req current_user u cv Hu Hlim Hc Hown Hfresh)
    as (w1 & Hrun & Hjob & _ & _ & _ & Hredis & _).
  destruct (admission_log w cv_id req current_user u cv Hu Hlim Hc Hown Hfresh)
    as (t1 & t2 & Hlog).
  rewrite Hrun in Hlog. simpl in Hlog.
  split.
  - intros q Hq. run_endpoint. rewrite Hrun, Hredis, Hq. simpl.
    eexists _, t1, t2. split; [reflexivity|]. simpl.
    split; [reflexivity|]. rewrite Hlog, <- app_assoc. reflexivity.
  - intros Hq. run_endpoint. rewrite Hrun, Hredis, Hq. simpl.
    destruct (process_render_job_found_returns w1 _ _ Hjob)
      as (job' & w2 & Hp & Hterm & Hid & _).
    simpl in Hp. rewrite Hp.
    eexists _, w2. split; [reflexivity|]. simpl. auto.
Qed.

(** X16. [render_cv_sync] returns a response only for a COMPLETED job: a
    job that ends FAILED makes it raise, and it never returns a PENDING or
    PROCESSING job. *)
Theorem render_cv_sync_returns_completed
    (w w' : @World B) (cv_id : string) (req : RenderRequest)
    (current_user : string) (resp : RenderJobResponse) :
  render_cv_sync uuid4 cv_id req current_user w = (Ok resp, w') ->
  resp_status resp = value COMPLETED /\
  RenderJob.status <$> render_jobs (database w') !! resp_id resp
  = Some (value COMPLETED).
Proof.
  run_endpoint.
  destruct (admission uuid4 cv_id req current_user w) as [[job|e] w1] eqn:Ha;
    [|discriminate].
  destruct (process_render_job (RenderJob.id job) w1) as [[job'|e] w2] eqn:Hp;
    [|discriminate].
  destruct (String.eqb (RenderJob.status job') (value FAILED)) eqn:Hfailed;
    [discriminate|].
  intros [= <- <-]. simpl.
  assert (Hid : RenderJob.id job' = RenderJob.id job).
  { destruct (render_jobs (session w1) !! RenderJob.id job) as [j|] eqn:Hj.
    - destruct (process_render_job_found_returns w1 _ _ Hj)
        as (j' & w3 & Hp' & _ & Hid & _).
      rewrite Hp in Hp'. injection Hp' as <- <-.
      rewrite Hid. clear - Ha Hj. revert Ha.
      open_world w. run.
      destruct (us !! current_user) as [u|] eqn:Hu; [|discriminate].
      destruct (User.can_render u); simpl; [|discriminate].
      destruct (cs !! cv_id) as [cv|]; [|discriminate].
      destruct (String.eqb (CV.user_id cv) (User.id u)); [|discriminate].
      simpl. destruct (js !! uuid4 entropy0); [discriminate|].
      rewrite lookup_insert_eq. simpl. rewrite lookup_insert_eq.
      rewrite lookup_alter_eq, Hu. simpl.
      destruct (User.renders_reset_at u); simpl.
      all: intros [= <- <-]; simpl in Hj.
      all: rewrite lookup_insert_eq in Hj; injection Hj as <-; reflexivity.
    - rewrite (process_render_job_not_found w1 _ Hj) in Hp. discriminate. }
  apply process_render_job_returns_terminal in Hp as (Hterm & Hdb & _).
  assert (Hdone : RenderJob.status job' = value COMPLETED).
  { destruct (terminal_cases _ Hterm) as [Hd|Hf]; [exact Hd|].
    rewrite Hf in Hfailed. discriminate. }
  split; [exact Hdone|]. rewrite Hid, Hdb. simpl. rewrite Hdone. reflexivity.
Qed.

(** X17. A refused request leaves no trace: when the admission steps
    raise, for the render limit, for a CV that is missing or another user's,
    or for a colliding identifier, [render_cv] and [render_cv_sync] raise the
    same exception, and the session, the database, the storage and the queue
    are as before, with no commit made. *)
Theorem refused_admission_changes_nothing
    (w w' : @World B) (cv_id : string) (req : RenderRequest)
    (current_user : string) (e : exn) :
  admission uuid4 cv_id req current_user w = (Raise e, w') ->
  render_cv uuid4 cv_id req current_user w = (Raise e, w') /\
  render_cv_sync uuid4 cv_id req current_user w = (Raise e, w') /\
  session w' = session w /\
  database w' = database w /\
  storage w' = storage w /\
  redis w' = redis w /\
  log w' = log w.
Proof.
  intros Ha. split; [|split].
  - run_endpoint. rewrite Ha. reflexivity.
  - run_endpoint. rewrite Ha. reflexivity.
  - revert Ha. open_world w. run.
    destruct (us !! current_user) as [u|] eqn:Hu;
      [|intros [= <- <-]; repeat split; reflexivity].
    destruct (User.can_render u); simpl;
      [|intros [= <- <-]; repeat split; reflexivity].
    destruct (cs !! cv_id) as [cv|];
      [|intros [= <- <-]; repeat split; reflexivity].
    destruct (String.eqb (CV.user_id cv) (User.id u));
      [|intros [= <- <-]; repeat split; reflexivity].
    simpl. destruct (js !! uuid4 entropy0);
      [intros [= <- <-]; repeat split; reflexivity|].
    rewrite lookup_insert_eq. simpl. rewrite lookup_insert_eq.
    rewrite lookup_alter_eq, Hu. simpl.
    destruct (User.renders_reset_at u); discriminate.
Qed.

(** X18. [delete_render_job] on a job of the user's own, whatever its
    status: when the job has an output path the backend is asked to delete
    it, and once that returns, or when there is no path to delete, the row is
    deleted and the deletion committed; the other job rows are untouched and
    [get_render_job] then answers 404. *)
Theorem delete_render_job_removes_job
    (w : @World B) (job_id current_user : string) (job : RenderJob.t) :
  render_jobs (session w) !! job_id = Some job ->
  RenderJob.user_id job = current_user ->
  (forall path,
     RenderJob.output_path job = Some path ->
     path <> "" ->
     exists b st, delete path (storage w) = (Ok b, st)) ->
  exists w',
    delete_render_job job_id current_user w
    = (Ok [("message", "Render job deleted successfully")], w') /\
    render_jobs (database w') !! job_id = None /\
    (forall other, other <> job_id ->
       render_jobs (database w') !! other = render_jobs (session w) !! other) /\
    filter is_backend_delete (new_events w w')
    = (if truthy_str (RenderJob.output_path job)
       then [BackendDelete (default "" (RenderJob.output_path job))]
       else []) /\
    get_render_job job_id current_user w'
    = (Raise (HTTPException HTTP_404_NOT_FOUND "Render job not found"), w').
Proof.
  open_world w. intros Hj Hown Hdel. run. rewrite Hj, Hown, String.eqb_refl.
  destruct (RenderJob.output_path job) as [path|]; simpl.
  - destruct (String.eqb path "") eqn:Hp; simpl.
    + eexists. split; [reflexivity|]. simpl. new_log.
      rewrite lookup_delete_eq. repeat split; try reflexivity.
      intros other Hne. rewrite lookup_delete_ne; [reflexivity|]. auto.
    + apply String.eqb_neq in Hp.
      destruct (Hdel path eq_refl Hp) as (b & st & Hd). rewrite Hd.
      eexists. split; [reflexivity|]. simpl. new_log.
      rewrite lookup_delete_eq. repeat split; try reflexivity.
      intros other Hne. rewrite lookup_delete_ne; [reflexivity|]. auto.
  - eexists. split; [reflexivity|]. simpl. new_log.
    rewrite lookup_delete_eq. repeat split; try reflexivity.
    intros other Hne. rewrite lookup_delete_ne; [reflexivity|]. auto.
Qed.



End WebProperties.

(** * The scenarios, run *)

#[local] Existing Instance sample_engine.

(** C1 (counterexample). In [world_done] the job J0 is COMPLETED;
    [process_render_job] on it returns a record with new timestamps, calls
    the converter and writes to the storage. *)
Lemma rerun_completed_job_is_not_a_noop :
  render_jobs (session world_done) !! "J0" = Some job_done /\
  RenderJob.status job_done = value COMPLETED /\
  fst (process_render_job "J0" world_done) = Ok job_rerun /\
  job_rerun <> job_done /\
  length (filter is_converter_call
            (new_events world_done (snd (process_render_job "J0" world_done))))
  = 1%nat /\
  length (filter is_backend_save
            (new_events world_done (snd (process_render_job "J0" world_done))))
  = 1%nat.
Proof.
  repeat split; try (vm_compute; reflexivity).
  intros H. discriminate H.
Qed.

(** C1 at J0 in [world_done], where the job is COMPLETED. *)
Lemma process_render_job_reruns_terminal_job_witness :
  render_jobs (session world_done) !! "J0" = Some job_done /\
  terminal (RenderJob.status job_done) = true /\
  exists job' w',
    process_render_job "J0" world_done = (Ok job', w') /\
    terminal (RenderJob.status job') = true /\
    RenderJob.id job' = RenderJob.id job_done.
Proof.
  assert (Hj : render_jobs (session world_done) !! "J0" = Some job_done)
    by (vm_compute; reflexivity).
  assert (Ht : terminal (RenderJob.status job_done) = true)
    by (vm_compute; reflexivity).
  split; [exact Hj|]. split; [exact Ht|].
  destruct (process_render_job_reruns_terminal_job world_done "J0" job_done
              Hj Ht)
    as (job' & w' & Hrun & Hterm & (Hid & _) & _).
  exists job', w'. auto.
Defined.


(** The worker does the same to the COMPLETED job J0. *)
Lemma worker_reenters_processing :
  committed_statuses "J0"
    (new_events world_done (snd (tasks_process_render_job "J0" world_done)))
  = [value PROCESSING; value COMPLETED].
Proof. vm_compute. reflexivity. Qed.


(** C3 (counterexample). The first commit of an admission holds the job
    row J0 while the user's render count is still 9, as it was before. *)
Lemma admission_first_commit_has_job_without_count :
  User.renders_this_month <$> users (database sample_world) !! "U" = Some 9 /\
  (commits (new_events sample_world world_admitted) !! 0%nat
   ≫= fun t => RenderJob.status <$> render_jobs t !! "J0")
  = Some (value PENDING) /\
  (commits (new_events sample_world world_admitted) !! 0%nat
   ≫= fun t => User.renders_this_month <$> users t !! "U")
  = Some 9 /\
  length (commits (new_events sample_world world_admitted)) = 2%nat.
Proof. repeat split; vm_compute; reflexivity. Qed.

(** C3 at the admission of a PDF render of D by the user at 9 renders. *)
Lemma admission_commits_job_then_count_witness :
  users (session sample_world) !! "U" = Some sample_user /\
  exists job w' t1 t2,
    admission sample_uuid4 "D" (mkRenderRequest PDF) "U" sample_world
    = (Ok job, w') /\
    new_events sample_world w' = [Commit t1; Commit t2] /\
    User.renders_this_month <$> users t1 !! "U" = Some 9 /\
    User.renders_this_month <$> users t2 !! "U" = Some (9 + 1).
Proof.
  assert (Hu : users (session sample_world) !! "U" = Some sample_user)
    by (vm_compute; reflexivity).
  assert (Hlim : User.can_render sample_user = true)
    by (vm_compute; reflexivity).
  assert (Hc : cvs (session sample_world) !! "D" = Some sample_cv)
    by (vm_compute; reflexivity).
  assert (Hfresh : render_jobs (session sample_world)
                   !! sample_uuid4 (entropy sample_world) = None)
    by (vm_compute; reflexivity).
  split; [exact Hu|].
  destruct (admission_commits_job_then_count sample_uuid4 sample_world "D"
              (mkRenderRequest PDF) "U" sample_user sample_cv
              Hu Hlim Hc eq_refl Hfresh)
    as (job & w' & t1 & t2 & Hrun & _ & Hcommits & _ & H1 & _ & H2 & _).
  exists job, w', t1, t2. auto.
Defined.

(** C4 at the user at 10 renders, who is refused, and at 9, who is
    admitted. *)
Lemma admission_quota_witness :
  users (session full_world) !! "U" = Some full_user /\
  is_quota_exceeded
    (fst (admission sample_uuid4 "D" (mkRenderRequest PDF) "U" full_world))
  = true /\
  users (session sample_world) !! "U" = Some sample_user /\
  exists job w',
    admission sample_uuid4 "D" (mkRenderRequest PDF) "U" sample_world
    = (Ok job, w') /\
    User.renders_this_month <$> users (database w') !! "U" = Some 10.
Proof.
  assert (Hf : users (session full_world) !! "U" = Some full_user)
    by (vm_compute; reflexivity).
  assert (Hu : users (session sample_world) !! "U" = Some sample_user)
    by (vm_compute; reflexivity).
  split; [exact Hf|]. split; [|split; [exact Hu|]].
  - destruct (admission_quota sample_uuid4 full_world "D" (mkRenderRequest PDF)
                "U" full_user Hf) as (_ & _ & _ & _ & Hten & _).
    apply Hten; reflexivity.
  - destruct (admission_quota sample_uuid4 sample_world "D"
                (mkRenderRequest PDF) "U" sample_user Hu)
      as (_ & _ & _ & _ & _ & Hnine).
    apply (Hnine eq_refl eq_refl sample_cv); vm_compute; reflexivity.
Defined.

(** C5 (counterexample). The completed Markdown render of D is recorded
    under [cv.markdown], not [cv.md]. *)
Lemma markdown_render_path_is_not_md :
  render_jobs (session world_admitted_markdown) !! "J0"
  = Some job_pending_markdown /\
  RenderJob.output_format job_pending_markdown = value MARKDOWN /\
  fst (process_render_job "J0" world_admitted_markdown) = Ok job_done_markdown /\
  RenderJob.status job_done_markdown = value COMPLETED /\
  RenderJob.output_path job_done_markdown = Some "renders/U/D/J0/cv.markdown" /\
  RenderJob.output_path job_done_markdown <> Some "renders/U/D/J0/cv.md".
Proof.
  repeat split; try (vm_compute; reflexivity).
  intros H. discriminate H.
Qed.

(** C5 at the Markdown render of D. *)
Lemma completed_render_output_path_witness :
  render_jobs (session world_admitted_markdown) !! "J0"
  = Some job_pending_markdown /\
  RenderJob.output_path job_done_markdown
  = Some (_generate_path "U" "D" "J0" ("cv." +:+ value MARKDOWN)).
Proof.
  assert (Hj : render_jobs (session world_admitted_markdown) !! "J0"
               = Some job_pending_markdown) by (vm_compute; reflexivity).
  split; [exact Hj|].
  apply (completed_render_output_path world_admitted_markdown
           (snd (process_render_job "J0" world_admitted_markdown))
           "J0" job_pending_markdown job_done_markdown sample_cv MARKDOWN Hj);
    vm_compute; reflexivity.
Defined.

(** C6 (counterexample). J0 is COMPLETED with its output recorded; the CV
    was emptied since, so rendering it again raises.  [process_render_job]
    on J0 returns the job FAILED with the output path, URL and size of the
    earlier render still set. *)
Lemma failed_rerun_keeps_output_fields :
  render_jobs (session world_edited) !! "J0" = Some job_done /\
  cvs (session world_edited) !! RenderJob.cv_id job_done = Some edited_cv /\
  render_or_save_raises (storage world_edited) job_done edited_cv
    (RenderCVError "invalid typst") /\
  fst (process_render_job "J0" world_edited) = Ok job_failed_with_output /\
  RenderJob.status job_failed_with_output = value FAILED /\
  RenderJob.error_message job_failed_with_output = Some "invalid typst" /\
  RenderJob.output_path job_failed_with_output
  = Some "renders/U/D/J0/cv.pdf" /\
  RenderJob.output_url job_failed_with_output
  = Some "/api/v1/files/renders/U/D/J0/cv.pdf" /\
  RenderJob.file_size_bytes job_failed_with_output = Some 10.
Proof. repeat split; vm_compute; reflexivity. Qed.

(** C6 at the PDF render of E, whose Typst file has no PDF. *)
Lemma process_render_job_captures_failure_witness :
  render_jobs (session world_admitted_empty) !! "J0" = Some job_pending_empty /\
  render_or_save_raises (storage world_admitted_empty) job_pending_empty
    empty_cv (RenderCVError "invalid typst") /\
  exists job' w',
    process_render_job "J0" world_admitted_empty = (Ok job', w') /\
    RenderJob.status job' = value FAILED /\
    RenderJob.error_message job' = Some "invalid typst" /\
    RenderJob.completed_at job' = Some 1002 /\
    RenderJob.output_path job' = None.
Proof.
  assert (Hj : render_jobs (session world_admitted_empty) !! "J0"
               = Some job_pending_empty) by (vm_compute; reflexivity).
  assert (Hc : cvs (session world_admitted_empty)
               !! RenderJob.cv_id job_pending_empty = Some empty_cv)
    by (vm_compute; reflexivity).
  assert (He : render_or_save_raises (storage world_admitted_empty)
                 job_pending_empty empty_cv (RenderCVError "invalid typst"))
    by (vm_compute; reflexivity).
  split; [exact Hj|]. split; [exact He|].
  destruct (process_render_job_captures_failure world_admitted_empty "J0"
              job_pending_empty empty_cv (RenderCVError "invalid typst")
              Hj Hc He)
    as (job' & w' & Hrun & _ & Hst & Hmsg & Hat & _ & Habsent).
  exists job', w'. repeat split; auto. apply Habsent; reflexivity.
Defined.

(** C7 (the failing input). [process_render_job] on the PENDING job J7,
    whose CV row is gone, returns the job FAILED with the message "CV not
    found" and no [completed_at]; the FAILED status is committed. *)
Lemma orphan_job_fails_without_completed_at :
  fst (process_render_job "J7" world_orphan)
  = Ok (RenderJob.mk "J7" "gone" "U" "failed" "pdf" None None None
          (Some "CV not found") None None 1000) /\
  committed_statuses "J7"
    (new_events world_orphan (snd (process_render_job "J7" world_orphan)))
  = [value FAILED] /\
  (RenderJob.completed_at
   <$> render_jobs (database (snd (process_render_job "J7" world_orphan)))
       !! "J7")
  = Some None.
Proof. repeat split; vm_compute; reflexivity. Qed.

(** C8 at two calls in different worlds with different contents. *)
Lemma save_render_output_path_deterministic_witness :
  fst (save_render_output [] "U" "D" "J0" "PDF" sample_world)
  = Ok ("renders/U/D/J0/cv.pdf", "/api/v1/files/renders/U/D/J0/cv.pdf", 0) /\
  fst (save_render_output [Byte.x25] "U" "D" "J0" "PDF" world_done)
  = Ok ("renders/U/D/J0/cv.pdf", "/api/v1/files/renders/U/D/J0/cv.pdf", 1) /\
  "renders/U/D/J0/cv.pdf" = _generate_path "U" "D" "J0" ("cv." +:+ lower "PDF").
Proof.
  split; [vm_compute; reflexivity|]. split; [vm_compute; reflexivity|].
  apply (save_render_output_path_deterministic
           sample_world world_done
           (snd (save_render_output [] "U" "D" "J0" "PDF" sample_world))
           (snd (save_render_output [Byte.x25] "U" "D" "J0" "PDF" world_done))
           [] [Byte.x25] "U" "D" "J0" "PDF"
           "renders/U/D/J0/cv.pdf" "renders/U/D/J0/cv.pdf"
           "/api/v1/files/renders/U/D/J0/cv.pdf"
           "/api/v1/files/renders/U/D/J0/cv.pdf" 0 1);
    vm_compute; reflexivity.
Defined.

(** C9 at the Markdown render of E, whose output is empty. *)
Lemma download_empty_output_not_found_witness :
  render_jobs (session world_empty_output) !! "J0" = Some job_empty_output /\
  files (storage world_empty_output)
  !! "/srv/storage/renders/U/E/J0/cv.markdown" = Some [] /\
  fst (download_render_output "J0" "U" world_empty_output)
  = Raise (HTTPException HTTP_404_NOT_FOUND "Output file not found in storage").
Proof.
  assert (Hj : render_jobs (session world_empty_output) !! "J0"
               = Some job_empty_output) by (vm_compute; reflexivity).
  split; [exact Hj|]. split; [vm_compute; reflexivity|].
  apply (download_empty_output_not_found world_empty_output "J0" "U"
           "renders/U/E/J0/cv.markdown" job_empty_output
           (storage world_empty_output) Hj);
    try (vm_compute; reflexivity).
  intros H. discriminate H.
Defined.

(** C10 at the synchronous PDF render of E: the job fails, the endpoint
    answers 500, and the count is 10. *)
Lemma admitted_render_costs_one_witness :
  users (session sample_world) !! "U" = Some sample_user /\
  fst (get_db (render_cv_sync sample_uuid4 "E" (mkRenderRequest PDF) "U")
              sample_world)
  = Raise (HTTPException HTTP_500_INTERNAL_SERVER_ERROR "invalid typst") /\
  (User.renders_this_month
   <$> users (database
                (snd (get_db (render_cv_sync sample_uuid4 "E"
                                (mkRenderRequest PDF) "U") sample_world)))
       !! "U")
  = Some (9 + 1).
Proof.
  assert (Hu : users (session sample_world) !! "U" = Some sample_user)
    by (vm_compute; reflexivity).
  assert (Hlim : User.can_render sample_user = true)
    by (vm_compute; reflexivity).
  assert (Hc : cvs (session sample_world) !! "E" = Some empty_cv)
    by (vm_compute; reflexivity).
  assert (Hfresh : render_jobs (session sample_world)
                   !! sample_uuid4 (entropy sample_world) = None)
    by (vm_compute; reflexivity).
  split; [exact Hu|]. split; [vm_compute; reflexivity|].
  exact (proj1 (admitted_render_costs_one sample_uuid4 sample_world "E"
                  (mkRenderRequest PDF) "U" sample_user empty_cv
                  Hu Hlim Hc eq_refl Hfresh)).
Defined.

(** ** The further properties, at the scenarios *)

(** X6 at J0 in [world_admitted]. *)
Lemma process_render_job_completes_witness :
  render_jobs (session world_admitted) !! "J0" = Some job_pending /\
  exists job' w',
    process_render_job "J0" world_admitted = (Ok job', w') /\
    RenderJob.status job' = value COMPLETED /\
    RenderJob.output_path job' = Some "renders/U/D/J0/cv.pdf" /\
    RenderJob.file_size_bytes job' = Some 10.
Proof.
  assert (Hj : render_jobs (session world_admitted) !! "J0" = Some job_pending)
    by (vm_compute; reflexivity).
  assert (Hc : cvs (session world_admitted) !! RenderJob.cv_id job_pending
               = Some sample_cv) by (vm_compute; reflexivity).
  split; [exact Hj|].
  destruct (process_render_job_completes world_admitted "J0" job_pending
              sample_cv sample_pdf "renders/U/D/J0/cv.pdf"
              "/api/v1/files/renders/U/D/J0/cv.pdf"
              (snd (Local.save sample_pdf "renders/U/D/J0/cv.pdf"
                               (Some "application/pdf") sample_storage))
              (snd (Local.save sample_pdf "renders/U/D/J0/cv.pdf"
                               (Some "application/pdf") sample_storage))
              Hj Hc)
    as (job' & w' & Hrun & _ & Hst & Hpath & _ & Hsize & _);
    try (vm_compute; reflexivity).
  exists job', w'. auto.
Defined.

(** X8 at [sample_world]. *)
Lemma create_render_job_inserts_pending_witness :
  render_jobs (session sample_world) !! sample_uuid4 (entropy sample_world)
  = None /\
  exists w',
    create_render_job sample_uuid4 sample_cv PDF sample_world
    = (Ok job_pending, w') /\
    render_jobs (database w') !! "J0" = Some job_pending.
Proof.
  assert (Hfresh : render_jobs (session sample_world)
                   !! sample_uuid4 (entropy sample_world) = None)
    by (vm_compute; reflexivity).
  split; [exact Hfresh|].
  destruct (create_render_job_inserts_pending sample_uuid4 sample_world
              sample_cv PDF Hfresh) as (w' & Hrun & Hdb & _).
  exists w'. auto.
Defined.

(** X11 at J0 of user U in [world_done], asked for by user V. *)
Lemma other_users_job_is_not_found_witness :
  render_jobs (session world_done) !! "J0" = Some job_done /\
  RenderJob.user_id job_done <> "V" /\
  download_render_output "J0" "V" world_done
  = (Raise (HTTPException HTTP_404_NOT_FOUND "Render job not found"),
     world_done).
Proof.
  assert (Hj : render_jobs (session world_done) !! "J0" = Some job_done)
    by (vm_compute; reflexivity).
  assert (Hne : RenderJob.user_id job_done <> "V")
    by (intros H; discriminate H).
  split; [exact Hj|]. split; [exact Hne|].
  exact (proj1 (proj2 (other_users_job_is_not_found world_done "J0" "V"
                         job_done Hj Hne))).
Defined.

(** X12 at the PENDING job J0 of [world_admitted]. *)
Lemma download_render_output_refusals_witness :
  render_jobs (session world_admitted) !! "J0" = Some job_pending /\
  download_render_output "J0" "U" world_admitted
  = (Raise (HTTPException HTTP_400_BAD_REQUEST
              "Render job is not completed (status: pending)"),
     world_admitted).
Proof.
  assert (Hj : render_jobs (session world_admitted) !! "J0" = Some job_pending)
    by (vm_compute; reflexivity).
  split; [exact Hj|].
  apply (proj1 (download_render_output_refusals world_admitted "J0" "U"
                  job_pending Hj eq_refl)).
  intros H. discriminate H.
Defined.

(** X14 at J0 in [world_admitted]. *)
Lemma worker_agrees_with_service_witness :
  session world_admitted = database world_admitted /\
  database (snd (tasks_process_render_job "J0" world_admitted))
  = database (snd (process_render_job "J0" world_admitted)).
Proof.
  assert (Hs : session world_admitted = database world_admitted)
    by (vm_compute; reflexivity).
  split; [exact Hs|].
  apply (worker_agrees_with_service world_admitted "J0" Hs).
  intros job Hj.
  replace (render_jobs (database world_admitted) !! "J0")
    with (Some job_pending) in Hj by (vm_compute; reflexivity).
  injection Hj as <-. reflexivity.
Defined.

(** X15 at [queue_world], where the job is queued, and at [sample_world],
    where Redis is down. *)
Lemma render_cv_dispatch_witness :
  users (session queue_world) !! "U" = Some sample_user /\
  (exists w',
     fst (render_cv sample_uuid4 "D" (mkRenderRequest PDF) "U" queue_world)
     = Ok (job_response job_pending) /\
     redis (snd (render_cv sample_uuid4 "D" (mkRenderRequest PDF) "U"
                           queue_world)) = Some ["J0"] /\
     w' = snd (render_cv sample_uuid4 "D" (mkRenderRequest PDF) "U"
                         queue_world)) /\
  exists resp w',
    render_cv sample_uuid4 "D" (mkRenderRequest PDF) "U" sample_world
    = (Ok resp, w') /\
    terminal (resp_status resp) = true.
Proof.
  assert (Hu : users (session queue_world) !! "U" = Some sample_user)
    by (vm_compute; reflexivity).
  assert (Hlim : User.can_render sample_user = true)
    by (vm_compute; reflexivity).
  assert (Hc : cvs (session queue_world) !! "D" = Some sample_cv)
    by (vm_compute; reflexivity).
  assert (Hfresh : render_jobs (session queue_world)
                   !! sample_uuid4 (entropy queue_world) = None)
    by (vm_compute; reflexivity).
  split; [exact Hu|]. split.
  - destruct (render_cv_dispatch sample_uuid4 queue_world "D"
                (mkRenderRequest PDF) "U" sample_user sample_cv
                Hu Hlim Hc eq_refl Hfresh) as [Hqueued _].
    destruct (Hqueued [] eq_refl) as (w' & t1 & t2 & Hrun & Hredis & _).
    exists w'. rewrite Hrun. simpl. auto.
  - destruct (render_cv_dispatch sample_uuid4 sample_world "D"
                (mkRenderRequest PDF) "U" sample_user sample_cv
                Hu Hlim Hc eq_refl Hfresh) as [_ Hdown].
    destruct (Hdown eq_refl) as (resp & w' & Hrun & _ & Hterm).
    exists resp, w'. auto.
Defined.

(** X16 at the synchronous PDF render of D. *)
Lemma render_cv_sync_returns_completed_witness :
  (exists resp,
     fst (render_cv_sync sample_uuid4 "D" (mkRenderRequest PDF) "U"
                         sample_world) = Ok resp /\
     resp_status resp = value COMPLETED).
Proof.
  exists (job_response job_done). split; [vm_compute; reflexivity|].
  apply (render_cv_sync_returns_completed sample_uuid4 sample_world world_done
           "D" (mkRenderRequest PDF) "U" (job_response job_done)).
  vm_compute. reflexivity.
Defined.

(** X17 at the user at 10 renders. *)
Lemma refused_admission_changes_nothing_witness :
  admission sample_uuid4 "D" (mkRenderRequest PDF) "U" full_world
  = (Raise (HTTPException HTTP_429_TOO_MANY_REQUESTS
              "Monthly render limit (10) exceeded"), full_world) /\
  render_cv sample_uuid4 "D" (mkRenderRequest PDF) "U" full_world
  = (Raise (HTTPException HTTP_429_TOO_MANY_REQUESTS
              "Monthly render limit (10) exceeded"), full_world).
Proof.
  assert (Ha : admission sample_uuid4 "D" (mkRenderRequest PDF) "U" full_world
               = (Raise (HTTPException HTTP_429_TOO_MANY_REQUESTS
                           "Monthly render limit (10) exceeded"), full_world))
    by (vm_compute; reflexivity).
  split; [exact Ha|].
  exact (proj1 (refused_admission_changes_nothing sample_uuid4 full_world
                  full_world "D" (mkRenderRequest PDF) "U" _ Ha)).
Defined.

(** X18 at J0 in [world_done], deleted by its owner. *)
Lemma delete_render_job_removes_job_witness :
  render_jobs (session world_done) !! "J0" = Some job_done /\
  exists w',
    delete_render_job "J0" "U" world_done
    = (Ok [("message", "Render job deleted successfully")], w') /\
    render_jobs (database w') !! "J0" = None /\
    filter is_backend_delete (new_events world_done w')
    = [BackendDelete "renders/U/D/J0/cv.pdf"].
Proof.
  assert (Hj : render_jobs (session world_done) !! "J0" = Some job_done)
    by (vm_compute; reflexivity).
  split; [exact Hj|].
  destruct (delete_render_job_removes_job world_done "J0" "U" job_done Hj
              eq_refl) as (w' & Hrun & Hdb & _ & Hev & _).
  - intros path [= <-] _. do 2 eexists. vm_compute. reflexivity.
  - exists w'. auto.
Defined.

